(** * Recipe execution clients: [run_recipe.py] and [run_recipe_v3.py]

    A shallow embedding of the two command-line clients under
    [.github/scripts/] and the properties of their exit codes, HTTP traffic
    and execution-log records.

    Both scripts are straight-line Python with [try]/[except] and
    [sys.exit]; they are embedded in a small state-and-exception monad over
    a [world] that holds what the scripts read (environment variables, the
    clock, the behaviour of the remote service, the state of the disk) and
    what they produce (standard output, the HTTP requests sent, the log
    file). *)

From Stdlib Require Import ZArith String List Bool Lia.
From stdpp Require Import base option strings gmap.
Import ListNotations.

Local Open Scope string_scope.
Local Open Scope Z_scope.
Local Open Scope list_scope.
Local Set Warnings "-register-all".

(** ** JSON values as Python sees them after [response.json()] *)

(** A parsed JSON document.  Python keeps integers and floats apart; a float
    is represented by its IEEE-754 binary64 bit pattern, which is all the
    scripts ever need of it (whether it is zero).  An object is a Python
    [dict]: insertion-ordered, one binding per key. *)
Inductive json : Type :=
| JNull
| JBool (b : bool)
| JInt (z : Z)
| JFloat (bits : Z)
| JStr (s : string)
| JArr (items : list json)
| JObj (fields : list (string * json)).

Abbreviation dict := (list (string * json)).

(** [d.get(k)] on a dict, as an option. *)
Fixpoint dict_get (k : string) (d : dict) : option json :=
  match d with
  | [] => None
  | (k', v) :: rest => if String.eqb k k' then Some v else dict_get k rest
  end.

(** [d[k] = v]: an existing key keeps its position, a new key goes last. *)
Fixpoint dict_set (k : string) (v : json) (d : dict) : dict :=
  match d with
  | [] => [(k, v)]
  | (k', v') :: rest =>
      if String.eqb k k' then (k', v) :: rest else (k', v') :: dict_set k v rest
  end.

(** [{**d, **extra}]: the bindings of [extra] are stored into [d] in order. *)
Definition dict_update (d extra : dict) : dict :=
  fold_left (fun acc kv => dict_set (fst kv) (snd kv) acc) extra d.

(** Python truth value: [bool(x)]. *)
Definition truthy (x : json) : bool :=
  match x with
  | JNull => false
  | JBool b => b
  | JInt z => negb (z =? 0)
  | JFloat bits => negb (Z.land bits (2 ^ 63 - 1) =? 0)
  | JStr s => negb (String.eqb s "")
  | JArr items => match items with [] => false | _ => true end
  | JObj fields => match fields with [] => false | _ => true end
  end.

(** [type(x).__name__]. *)
Definition type_name (x : json) : string :=
  match x with
  | JNull => "NoneType"
  | JBool _ => "bool"
  | JInt _ => "int"
  | JFloat _ => "float"
  | JStr _ => "str"
  | JArr _ => "list"
  | JObj _ => "dict"
  end.

(** [x == "success"] for a parsed value [x]. *)
Definition eq_str (x : json) (s : string) : bool :=
  match x with
  | JStr t => String.eqb t s
  | _ => false
  end.

Definition is_dict (x : json) : bool :=
  match x with JObj _ => true | _ => false end.

(** An optional string as a JSON value ([None] is [null]). *)
Definition of_opt_str (o : option string) : json :=
  match o with Some s => JStr s | None => JNull end.

(** ** Exceptions *)

(** The exceptions that are subclasses of [Exception], grouped by the
    [except] clauses of the scripts that can tell them apart:
    [requests.exceptions.Timeout], any other
    [requests.exceptions.RequestException] (connection errors, [HTTPError],
    the JSON decoding error of recent [requests]) and everything else
    ([AttributeError], [OSError], [ValueError], ...).  The payload is
    [str(e)]. *)
Inductive exn : Type :=
| Timeout (msg : string)
| RequestException (msg : string)
| OtherException (msg : string).

Definition str_exn (e : exn) : string :=
  match e with
  | Timeout m | RequestException m | OtherException m => m
  end.

Definition isinstance_Timeout (e : exn) : bool :=
  match e with Timeout _ => true | _ => false end.

(** [Timeout] is a subclass of [RequestException]. *)
Definition isinstance_RequestException (e : exn) : bool :=
  match e with Timeout _ | RequestException _ => true | OtherException _ => false end.

(** What unwinds the stack: [SystemExit] (raised by [sys.exit], a
    [BaseException] that no [except Exception] clause matches) or an
    [Exception]. *)
Inductive signal : Type :=
| SystemExit (code : Z)
| Error (e : exn).

(** ** The outside world *)

Record request : Type := mkRequest {
  req_url : string;
  req_headers : list (string * string);
  req_json : json;
  req_timeout : Z
}.

(** What [response.json()] does: returns the parsed body or raises. *)
Inductive parse : Type :=
| Parsed (v : json)
| Malformed (e : exn).

Record response : Type := mkResponse {
  status_code : Z;
  reason : string;
  url : string;
  text : string;
  body : parse
}.

(** What [requests.post] does: raises or returns a response. *)
Inductive reply : Type :=
| Raises (e : exn)
| Responds (r : response).

Record world : Type := mkWorld {
  (* read by the scripts *)
  environ : gmap string string;
  clock : nat -> string;      (* the n-th reading of [datetime.now().isoformat()] *)
  server : request -> reply;
  disk_fault : option string; (* [Some m]: [open(..., "w")] raises [OSError(m)] *)
  (* changed by the scripts *)
  ticks : nat;
  stdout : list string;
  sent : list request;
  log_file : option string;   (* contents of execution_log.json *)
  written : list json         (* every object dumped to the log file, oldest first *)
}.

(** ** Python's string formatting *)

(** The two formatting functions the scripts use on JSON values are left
    abstract: [json.dumps(v, indent=2, ensure_ascii=...)] and [str(v)]. *)
Class Formatting : Type := {
  json_dumps : bool -> json -> string;
  py_str : json -> string
}.

(** ** The monad *)

Inductive result (A : Type) : Type :=
| Ret (a : A)
| Raise (s : signal).
Arguments Ret {A} a.
Arguments Raise {A} s.

Definition M (A : Type) : Type := world -> result A * world.

Definition ret {A} (a : A) : M A := fun w => (Ret a, w).

Definition bind {A B} (m : M A) (k : A -> M B) : M B :=
  fun w =>
    match m w with
    | (Ret a, w') => k a w'
    | (Raise s, w') => (Raise s, w')
    end.

Definition raise {A} (e : exn) : M A := fun w => (Raise (Error e), w).

(** [sys.exit(code)]. *)
Definition sys_exit {A} (code : Z) : M A := fun w => (Raise (SystemExit code), w).

Declare Scope py_scope.
Delimit Scope py_scope with py.
Notation "x <- m ;; k" := (bind m (fun x => k))
  (at level 100, m at next level, right associativity) : py_scope.
Notation "m ;; k" := (bind m (fun _ => k))
  (at level 100, right associativity) : py_scope.
Local Open Scope py_scope.

(** [try: body  except C1 as e: h1 e  except C2 as e: h2 e ...]: the first
    clause whose class the exception is an instance of handles it; what a
    handler raises is not offered to its sibling clauses.  [SystemExit] is
    an instance of none of the classes the scripts name. *)
Fixpoint select_handler {A} (clauses : list ((exn -> bool) * (exn -> M A)))
    (e : exn) : M A :=
  match clauses with
  | [] => raise e
  | (C, handler) :: rest => if C e then handler e else select_handler rest e
  end.

Definition try_except {A} (body : M A)
    (clauses : list ((exn -> bool) * (exn -> M A))) : M A :=
  fun w =>
    match body w with
    | (Raise (Error e), w') => select_handler clauses e w'
    | other => other
    end.

(** [isinstance(e, Exception)] for the exceptions of [exn]. *)
Definition isinstance_Exception (e : exn) : bool := true.

(** [not x] for a value read from the environment ([None] or a [str]). *)
Definition py_not (o : option string) : bool := negb (truthy (of_opt_str o)).

(** A value read from the environment, used where the scripts have already
    established that it is a non-empty [str]. *)
Definition the_str (o : option string) : string := default "" o.

(** ** Primitive operations on the world *)

Definition set_ticks (n : nat) (w : world) : world :=
  mkWorld (environ w) (clock w) (server w) (disk_fault w)
          n (stdout w) (sent w) (log_file w) (written w).

Definition set_stdout (l : list string) (w : world) : world :=
  mkWorld (environ w) (clock w) (server w) (disk_fault w)
          (ticks w) l (sent w) (log_file w) (written w).

Definition set_sent (l : list request) (w : world) : world :=
  mkWorld (environ w) (clock w) (server w) (disk_fault w)
          (ticks w) (stdout w) l (log_file w) (written w).

Definition set_log (content : string) (obj : json) (w : world) : world :=
  mkWorld (environ w) (clock w) (server w) (disk_fault w)
          (ticks w) (stdout w) (sent w) (Some content) (written w ++ [obj]).

(** [os.environ.get(k)]. *)
Definition getenv (k : string) : M (option string) :=
  fun w => (Ret (environ w !! k), w).

(** [os.environ.get(k, default)]. *)
Definition getenv_default (k fallback : string) : M string :=
  fun w => (Ret (default fallback (environ w !! k)), w).

(** [datetime.now().isoformat()]: every reading advances the clock. *)
Definition now_isoformat : M string :=
  fun w => (Ret (clock w (ticks w)), set_ticks (S (ticks w)) w).

(** [print(line)]. *)
Definition print (line : string) : M unit :=
  fun w => (Ret tt, set_stdout (stdout w ++ [line]) w).

(** [requests.post(url, headers=..., json=..., timeout=...)]: the request
    goes out, then the service decides. *)
Definition requests_post (rq : request) : M response :=
  fun w =>
    let w' := set_sent (sent w ++ [rq]) w in
    match server w rq with
    | Raises e => (Raise (Error e), w')
    | Responds r => (Ret r, w')
    end.

(** [response.json()]. *)
Definition response_json (r : response) : M json :=
  match body r with
  | Parsed v => ret v
  | Malformed e => raise e
  end.

(** [response.raise_for_status()] of the [requests] library builds a message
    for a status in 400..499 (client error) or 500..599 (server error) and,
    when there is one, raises [HTTPError], a [RequestException]. *)
Definition http_error_msg `{Formatting} (r : response) : option string :=
  if (400 <=? status_code r) && (status_code r <? 500) then
    Some (py_str (JInt (status_code r)) +:+ " Client Error: " +:+ reason r
          +:+ " for url: " +:+ url r)
  else if (500 <=? status_code r) && (status_code r <? 600) then
    Some (py_str (JInt (status_code r)) +:+ " Server Error: " +:+ reason r
          +:+ " for url: " +:+ url r)
  else None.

Definition raise_for_status `{Formatting} (r : response) : M unit :=
  match http_error_msg r with
  | Some m => raise (RequestException m)
  | None => ret tt
  end.

(** [with open("execution_log.json", "w", encoding="utf-8") as f:
        json.dump(log_data, f, indent=2, ensure_ascii=False)]
    Opening for writing truncates: the new text replaces what was there. *)
Definition dump_log_file `{Formatting} (log_data : json) : M unit :=
  fun w =>
    match disk_fault w with
    | Some m => (Raise (Error (OtherException m)), w)
    | None => (Ret tt, set_log (json_dumps false log_data) log_data w)
    end.

(** [str(e)] of the [AttributeError] that [x.get] raises when [x] is not a
    dict. *)
Definition no_get (x : json) : string :=
  "'" +:+ type_name x +:+ "' object has no attribute 'get'".

(** [x.get(k, d)] on a parsed value: only a dict has the method. *)
Definition py_get (x : json) (k : string) (d : json) : M json :=
  match x with
  | JObj fields => ret (default d (dict_get k fields))
  | _ => raise (OtherException (no_get x))
  end.

(** ** Running a script as a process *)

Inductive termination : Type :=
| Returned                 (* the script ran off its end *)
| Exited (code : Z)        (* [sys.exit(code)] reached the top level *)
| Crashed (e : exn).       (* an exception reached the top level: traceback *)

Definition exit_status (t : termination) : Z :=
  match t with
  | Returned => 0
  | Exited code => code
  | Crashed _ => 1
  end.

(** [if __name__ == "__main__": run_recipe()]. *)
Definition run_main (script : M unit) (w : world) : termination * world :=
  match script w with
  | (Ret _, w') => (Returned, w')
  | (Raise (SystemExit code), w') => (Exited code, w')
  | (Raise (Error e), w') => (Crashed e, w')
  end.

(** ** [run_recipe_v3.py]: the client of the Rube endpoint *)

Module Rube.
Section Script.
Context `{Formatting}.

Definition API_BASE_URL : string := "https://backend.composio.dev/api/v1/rube".

(** [log(message)]: print a timestamped line. *)
Definition log (message : string) : M unit :=
  timestamp <- now_isoformat ;;
  print ("[" +:+ timestamp +:+ "] " +:+ message).

(** [save_log(data)]. *)
Definition save_log (data : dict) : M unit :=
  execution_time <- now_isoformat ;;
  recipe_id <- getenv "RECIPE_ID" ;;
  let log_data :=
    dict_update [ ("execution_time", JStr execution_time);
                  ("recipe_id", of_opt_str recipe_id) ] data in
  try_except
    (dump_log_file (JObj log_data) ;;
     log "Execution log saved to execution_log.json")
    [ (isinstance_Exception,
       fun e => log ("Warning: Failed to save log: " +:+ str_exn e)) ].

(** The body of the [try] block of [run_recipe] (lines 77 to 152). *)
Definition call_api (recipe_id : string) (input_data : dict) (rq : request) : M unit :=
  response <- requests_post rq ;;
  log ("Response status code: " +:+ py_str (JInt (status_code response))) ;;
  (if negb ((status_code response =? 200) || (status_code response =? 201)) then
     let error_msg :=
       "API request failed with status " +:+ py_str (JInt (status_code response)) in
     log ("ERROR: " +:+ error_msg) ;;
     log ("Response: " +:+ text response) ;;
     save_log [ ("status", JStr "failed");
                ("error", JStr error_msg);
                ("response", JStr (text response));
                ("status_code", JInt (status_code response)) ] ;;
     sys_exit 1
   else ret tt) ;;
  result <- response_json response ;;
  log "Recipe execution initiated successfully!" ;;
  log ("Result: " +:+ json_dumps false result) ;;
  execution_id <- py_get result "execution_id" JNull ;;
  (if truthy execution_id then
     log ("Recipe executing asynchronously with execution_id: " +:+ py_str execution_id) ;;
     log "Results will be available in spreadsheet and email when complete" ;;
     save_log [ ("status", JStr "started");
                ("execution_id", execution_id);
                ("recipe_id", JStr recipe_id);
                ("input", JObj input_data);
                ("message", JStr "Recipe execution started successfully");
                ("note", JStr "Results will be updated to spreadsheet and sent via email") ] ;;
     log "✅ Analysis started successfully!" ;;
     log "📊 Results will be available in 3-5 minutes" ;;
     log "📧 You will receive an email notification when complete"
   else
     log "Recipe executed synchronously" ;;
     data <- py_get result "data" result ;;
     total_prospects <- py_get data "total_prospects_analyzed" JNull ;;
     top_prospects <- py_get data "top_prospects_count" JNull ;;
     events <- py_get data "relevant_events_count" JNull ;;
     save_log [ ("status", JStr "success");
                ("recipe_id", JStr recipe_id);
                ("input", JObj input_data);
                ("result", data);
                ("total_prospects", total_prospects);
                ("top_prospects", top_prospects);
                ("events", events) ] ;;
     log "✅ Analysis completed successfully!" ;;
     spreadsheet_updated <- py_get data "spreadsheet_updated" JNull ;;
     (if truthy spreadsheet_updated then log "📊 Spreadsheet updated" else ret tt) ;;
     email_sent <- py_get data "email_sent" JNull ;;
     (if truthy email_sent then log "📧 Email report sent" else ret tt)) ;;
  sys_exit 0.

(** The three [except] clauses of [run_recipe] (lines 154 to 179). *)
Definition on_timeout (e : exn) : M unit :=
  let error_msg := "Request timeout after 10 minutes" in
  log ("ERROR: " +:+ error_msg) ;;
  save_log [ ("status", JStr "failed"); ("error", JStr error_msg) ] ;;
  sys_exit 1.

Definition on_request_exception (e : exn) : M unit :=
  let error_msg := "Request failed: " +:+ str_exn e in
  log ("ERROR: " +:+ error_msg) ;;
  save_log [ ("status", JStr "failed"); ("error", JStr error_msg) ] ;;
  sys_exit 1.

Definition on_exception (e : exn) : M unit :=
  let error_msg := "Unexpected error: " +:+ str_exn e in
  log ("ERROR: " +:+ error_msg) ;;
  save_log [ ("status", JStr "failed"); ("error", JStr error_msg) ] ;;
  sys_exit 1.

(** [run_recipe()]. *)
Definition run_recipe : M unit :=
  log "=== Starting Market America Prospect Analysis ===" ;;
  api_key <- getenv "COMPOSIO_API_KEY" ;;
  recipe_id <- getenv "RECIPE_ID" ;;
  (if py_not api_key then log "ERROR: COMPOSIO_API_KEY not set" ;; sys_exit 1
   else ret tt) ;;
  (if py_not recipe_id then log "ERROR: RECIPE_ID not set" ;; sys_exit 1
   else ret tt) ;;
  prospect_spreadsheet_id <- getenv_default "PROSPECT_SPREADSHEET_ID" "" ;;
  line_log_spreadsheet_id <- getenv_default "LINE_LOG_SPREADSHEET_ID" "" ;;
  email_recipient <- getenv_default "EMAIL_RECIPIENT" "" ;;
  calendar_id <- getenv_default "CALENDAR_ID" "primary" ;;
  days_ahead <- getenv_default "DAYS_AHEAD" "21" ;;
  top_n_prospects <- getenv_default "TOP_N_PROSPECTS" "10" ;;
  let input_data : dict :=
    [ ("prospect_spreadsheet_id", JStr prospect_spreadsheet_id);
      ("line_log_spreadsheet_id", JStr line_log_spreadsheet_id);
      ("email_recipient", JStr email_recipient);
      ("calendar_id", JStr calendar_id);
      ("days_ahead", JStr days_ahead);
      ("top_n_prospects", JStr top_n_prospects) ] in
  (if negb (truthy (JStr prospect_spreadsheet_id)) then
     log "ERROR: PROSPECT_SPREADSHEET_ID not set" ;; sys_exit 1
   else ret tt) ;;
  (if negb (truthy (JStr line_log_spreadsheet_id)) then
     log "ERROR: LINE_LOG_SPREADSHEET_ID not set" ;; sys_exit 1
   else ret tt) ;;
  (if negb (truthy (JStr email_recipient)) then
     log "ERROR: EMAIL_RECIPIENT not set" ;; sys_exit 1
   else ret tt) ;;
  log ("Recipe ID: " +:+ the_str recipe_id) ;;
  log ("Input data: " +:+ json_dumps false (JObj input_data)) ;;
  let url := API_BASE_URL +:+ "/recipe/execute" in
  let headers :=
    [ ("X-API-Key", the_str api_key); ("Content-Type", "application/json") ] in
  let payload :=
    JObj [ ("recipe_id", JStr (the_str recipe_id)); ("params", JObj input_data) ] in
  log ("Calling Rube API: " +:+ url) ;;
  try_except
    (call_api (the_str recipe_id) input_data (mkRequest url headers payload 600))
    [ (isinstance_Timeout, on_timeout);
      (isinstance_RequestException, on_request_exception);
      (isinstance_Exception, on_exception) ].

End Script.
End Rube.

(** ** [run_recipe.py]: the client of the legacy endpoint *)

Module Legacy.
Section Script.
Context `{Formatting}.

(** [with open(...) as f: json.dump(log_data, f, ...)], as the script has it
    at lines 65–66 and 87–88: nothing around it catches a failure. *)
Definition write_log (log_data : dict) : M unit :=
  dump_log_file (JObj log_data).

(** The body of the [try] block of [run_recipe] (lines 48 to 74). *)
Definition call_api (recipe_id : string) (input_data : dict) (rq : request) : M unit :=
  response <- requests_post rq ;;
  raise_for_status response ;;
  result <- response_json response ;;
  t <- now_isoformat ;;
  print ("[" +:+ t +:+ "] Recipe execution completed!") ;;
  print ("Result: " +:+ json_dumps false result) ;;
  execution_time <- now_isoformat ;;
  let log_data : dict :=
    [ ("execution_time", JStr execution_time);
      ("recipe_id", JStr recipe_id);
      ("input", JObj input_data);
      ("result", result);
      ("status", JStr "success") ] in
  write_log log_data ;;
  success <- py_get result "success" JNull ;;
  ok <- (if truthy success then ret true
         else status <- py_get result "status" JNull ;;
              ret (eq_str status "success")) ;;
  if (ok : bool) then
    print "✅ Analysis completed successfully!" ;; sys_exit 0
  else
    print "⚠️ Analysis completed with warnings" ;; sys_exit 0.

(** The [except requests.exceptions.RequestException as e] clause
    (lines 76 to 90). *)
Definition on_request_exception (recipe_id : string) (input_data : dict)
    (e : exn) : M unit :=
  print ("❌ ERROR: Failed to execute recipe: " +:+ str_exn e) ;;
  execution_time <- now_isoformat ;;
  let log_data : dict :=
    [ ("execution_time", JStr execution_time);
      ("recipe_id", JStr recipe_id);
      ("input", JObj input_data);
      ("error", JStr (str_exn e));
      ("status", JStr "failed") ] in
  write_log log_data ;;
  sys_exit 1.

(** [run_recipe()]. *)
Definition run_recipe : M unit :=
  api_key <- getenv "COMPOSIO_API_KEY" ;;
  recipe_id <- getenv "RECIPE_ID" ;;
  (if py_not api_key || py_not recipe_id then
     print "ERROR: Missing COMPOSIO_API_KEY or RECIPE_ID" ;; sys_exit 1
   else ret tt) ;;
  prospect_spreadsheet_id <- getenv_default "PROSPECT_SPREADSHEET_ID" "" ;;
  line_log_spreadsheet_id <- getenv_default "LINE_LOG_SPREADSHEET_ID" "" ;;
  email_recipient <- getenv_default "EMAIL_RECIPIENT" "" ;;
  calendar_id <- getenv_default "CALENDAR_ID" "primary" ;;
  days_ahead <- getenv_default "DAYS_AHEAD" "21" ;;
  top_n_prospects <- getenv_default "TOP_N_PROSPECTS" "10" ;;
  let input_data : dict :=
    [ ("prospect_spreadsheet_id", JStr prospect_spreadsheet_id);
      ("line_log_spreadsheet_id", JStr line_log_spreadsheet_id);
      ("email_recipient", JStr email_recipient);
      ("calendar_id", JStr calendar_id);
      ("days_ahead", JStr days_ahead);
      ("top_n_prospects", JStr top_n_prospects) ] in
  t <- now_isoformat ;;
  print ("[" +:+ t +:+ "] Starting recipe execution...") ;;
  print ("Recipe ID: " +:+ the_str recipe_id) ;;
  print ("Input data: " +:+ json_dumps true (JObj input_data)) ;;
  let url :=
    "https://backend.composio.dev/api/v3/recipes/" +:+ the_str recipe_id +:+ "/execute" in
  let headers :=
    [ ("X-API-Key", the_str api_key); ("Content-Type", "application/json") ] in
  let payload := JObj [ ("input", JObj input_data) ] in
  try_except
    (call_api (the_str recipe_id) input_data (mkRequest url headers payload 600))
    [ (isinstance_RequestException,
       on_request_exception (the_str recipe_id) input_data) ].

End Script.
End Legacy.

(** ** Vocabulary for the statements *)

(** The two clients. *)
Inductive variant : Type :=
| VLegacy   (* run_recipe.py *)
| VRube.    (* run_recipe_v3.py *)

Definition script `{Formatting} (v : variant) : M unit :=
  match v with
  | VLegacy => Legacy.run_recipe
  | VRube => Rube.run_recipe
  end.

(** A configuration value counts as given when the variable is set to a
    non-empty string, and as missing when it is unset or empty. *)
Definition env_given (w : world) (k : string) : bool :=
  match environ w !! k with
  | Some v => negb (String.eqb v "")
  | None => false
  end.

Definition missing (w : world) (k : string) : Prop :=
  environ w !! k = None \/ environ w !! k = Some "".

(** The five required configuration fields of the specification, and the
    ones each script checks before it calls the service. *)
Definition required_fields : list string :=
  [ "COMPOSIO_API_KEY"; "RECIPE_ID"; "PROSPECT_SPREADSHEET_ID";
    "LINE_LOG_SPREADSHEET_ID"; "EMAIL_RECIPIENT" ].

Definition checked_fields (v : variant) : list string :=
  match v with
  | VLegacy => [ "COMPOSIO_API_KEY"; "RECIPE_ID" ]
  | VRube => required_fields
  end.

Definition configured (v : variant) (w : world) : bool :=
  forallb (env_given w) (checked_fields v).

Definition recipe_id_of (w : world) : string := the_str (environ w !! "RECIPE_ID").

Definition api_key_of (w : world) : string := the_str (environ w !! "COMPOSIO_API_KEY").

(** The parameter mapping both scripts build from the environment. *)
Definition input_data_of (w : world) : dict :=
  [ ("prospect_spreadsheet_id", JStr (default "" (environ w !! "PROSPECT_SPREADSHEET_ID")));
    ("line_log_spreadsheet_id", JStr (default "" (environ w !! "LINE_LOG_SPREADSHEET_ID")));
    ("email_recipient", JStr (default "" (environ w !! "EMAIL_RECIPIENT")));
    ("calendar_id", JStr (default "primary" (environ w !! "CALENDAR_ID")));
    ("days_ahead", JStr (default "21" (environ w !! "DAYS_AHEAD")));
    ("top_n_prospects", JStr (default "10" (environ w !! "TOP_N_PROSPECTS"))) ].

(** The one request each script sends. *)
Definition request_of (v : variant) (w : world) : request :=
  match v with
  | VLegacy =>
      mkRequest
        ("https://backend.composio.dev/api/v3/recipes/" +:+ recipe_id_of w +:+ "/execute")
        [ ("X-API-Key", api_key_of w); ("Content-Type", "application/json") ]
        (JObj [ ("input", JObj (input_data_of w)) ])
        600
  | VRube =>
      mkRequest
        (Rube.API_BASE_URL +:+ "/recipe/execute")
        [ ("X-API-Key", api_key_of w); ("Content-Type", "application/json") ]
        (JObj [ ("recipe_id", JStr (recipe_id_of w)); ("params", JObj (input_data_of w)) ])
        600
  end.

(** The same world with another state of the disk. *)
Definition with_disk (fault : option string) (w : world) : world :=
  mkWorld (environ w) (clock w) (server w) fault
          (ticks w) (stdout w) (sent w) (log_file w) (written w).

(** A field of a record of the log file. *)
Definition record_field (k : string) (rec : json) : option json :=
  match rec with
  | JObj d => dict_get k d
  | _ => None
  end.

(** A record with its [execution_time] replaced. *)
Definition set_time (t : string) (rec : json) : json :=
  match rec with
  | JObj d => JObj (dict_set "execution_time" (JStr t) d)
  | other => other
  end.

(** The status test of [run_recipe_v3.py]: 200 or 201. *)
Definition status_ok (r : response) : bool :=
  (status_code r =? 200) || (status_code r =? 201).

(** The [execution_id] of a parsed body, as [result.get("execution_id")]
    reads it from a dict. *)
Definition execution_id_of (o : dict) : json := default JNull (dict_get "execution_id" o).

(** The [data] of a parsed body, as [result.get("data", result)] reads it. *)
Definition data_of (o : dict) : json := default (JObj o) (dict_get "data" o).

(** Only printing and clock reading separate [w1] from [w]. *)
Definition quiet (w w1 : world) : Prop :=
  environ w1 = environ w /\ server w1 = server w /\ disk_fault w1 = disk_fault w /\
  sent w1 = sent w /\ log_file w1 = log_file w /\ written w1 = written w.

(** The first of the fields [fields] that is missing in [w], in the order
    the checks are made. *)
Fixpoint first_missing (w : world) (fields : list string) : option string :=
  match fields with
  | [] => None
  | k :: rest => if env_given w k then first_missing w rest else Some k
  end.

(** The value [os.environ.get(k, d)] reads. *)
Definition env_or (w : world) (k d : string) : string :=
  match environ w !! k with
  | Some v => v
  | None => d
  end.

Section Summaries.
Context `{Formatting}.

(** *** What [run_recipe_v3.py] passes to [save_log], by reply *)

Definition failed_data (error_msg : string) : dict :=
  [ ("status", JStr "failed"); ("error", JStr error_msg) ].

Definition rube_on_error (e : exn) : dict :=
  match e with
  | Timeout _ => failed_data "Request timeout after 10 minutes"
  | RequestException m => failed_data ("Request failed: " +:+ m)
  | OtherException m => failed_data ("Unexpected error: " +:+ m)
  end.

Definition started_data (recipe_id : string) (input_data : dict) (execution_id : json) : dict :=
  [ ("status", JStr "started");
    ("execution_id", execution_id);
    ("recipe_id", JStr recipe_id);
    ("input", JObj input_data);
    ("message", JStr "Recipe execution started successfully");
    ("note", JStr "Results will be updated to spreadsheet and sent via email") ].

Definition success_data (recipe_id : string) (input_data : dict) (d : dict) : dict :=
  [ ("status", JStr "success");
    ("recipe_id", JStr recipe_id);
    ("input", JObj input_data);
    ("result", JObj d);
    ("total_prospects", default JNull (dict_get "total_prospects_analyzed" d));
    ("top_prospects", default JNull (dict_get "top_prospects_count" d));
    ("events", default JNull (dict_get "relevant_events_count" d)) ].

Definition http_failed_data (r : response) : dict :=
  [ ("status", JStr "failed");
    ("error", JStr ("API request failed with status " +:+ py_str (JInt (status_code r))));
    ("response", JStr (text r));
    ("status_code", JInt (status_code r)) ].

Definition rube_saved (recipe_id : string) (input_data : dict) (rep : reply) : dict :=
  match rep with
  | Raises e => rube_on_error e
  | Responds r =>
      if negb (status_ok r) then http_failed_data r
      else
        match body r with
        | Malformed e => rube_on_error e
        | Parsed (JObj o) =>
            if truthy (execution_id_of o) then
              started_data recipe_id input_data (execution_id_of o)
            else
              match data_of o with
              | JObj d => success_data recipe_id input_data d
              | data => failed_data ("Unexpected error: " +:+ no_get data)
              end
        | Parsed v => failed_data ("Unexpected error: " +:+ no_get v)
        end
  end.

Definition status_is (s : string) (d : dict) : bool :=
  match dict_get "status" d with
  | Some (JStr t) => String.eqb t s
  | _ => false
  end.

Definition rube_exit (data : dict) : Z := if status_is "failed" data then 1 else 0.

(** The record [save_log] builds around [data]. *)
Definition log_record (t : string) (recipe_id : json) (data : dict) : json :=
  JObj (dict_update [ ("execution_time", JStr t); ("recipe_id", recipe_id) ] data).

Definition after_save_log (data : dict) (w : world) : world :=
  snd (Rube.save_log data w).

(** [w'] carries the traces [save_log data] left when it ran in [w0]. *)
Definition saved_at (data : dict) (w0 w' : world) : Prop :=
  written w' = written (after_save_log data w0) /\
  log_file w' = log_file (after_save_log data w0) /\
  sent w' = sent w0 /\
  (forall line, In line (stdout (after_save_log data w0)) -> In line (stdout w')).

Definition rube_clauses : list ((exn -> bool) * (exn -> M unit)) :=
  [ (isinstance_Timeout, Rube.on_timeout);
    (isinstance_RequestException, Rube.on_request_exception);
    (isinstance_Exception, Rube.on_exception) ].

(** *** What the [try] block of [run_recipe.py] comes to, by reply *)

Inductive attempt : Type :=
| Raised (e : exn)      (* an exception left the block before the record was built *)
| Received (v : json).  (* the body was parsed *)

Definition legacy_attempt (rep : reply) : attempt :=
  match rep with
  | Raises e => Raised e
  | Responds r =>
      match http_error_msg r with
      | Some m => Raised (RequestException m)
      | None =>
          match body r with
          | Malformed e => Raised e
          | Parsed v => Received v
          end
      end
  end.

(** The record the script goes on to write, without its [execution_time]. *)
Definition legacy_fields (recipe_id : string) (input_data : dict) (a : attempt)
    : option dict :=
  match a with
  | Raised e =>
      if isinstance_RequestException e then
        Some [ ("recipe_id", JStr recipe_id);
               ("input", JObj input_data);
               ("error", JStr (str_exn e));
               ("status", JStr "failed") ]
      else None
  | Received v =>
      Some [ ("recipe_id", JStr recipe_id);
             ("input", JObj input_data);
             ("result", v);
             ("status", JStr "success") ]
  end.

Definition legacy_success (o : dict) : bool :=
  truthy (default JNull (dict_get "success" o))
  || eq_str (default JNull (dict_get "status" o)) "success".

Definition legacy_verdict (o : dict) : string :=
  if legacy_success o then "✅ Analysis completed successfully!"
  else "⚠️ Analysis completed with warnings".

Definition legacy_end (a : attempt) (fault : option string) : termination :=
  match a, fault with
  | Raised e, Some m =>
      if isinstance_RequestException e then Crashed (OtherException m) else Crashed e
  | Raised e, None =>
      if isinstance_RequestException e then Exited 1 else Crashed e
  | Received v, Some m => Crashed (OtherException m)
  | Received v, None =>
      if is_dict v then Exited 0 else Crashed (OtherException (no_get v))
  end.

(** How a termination shows inside the monad. *)
Definition result_of (t : termination) : result unit :=
  match t with
  | Returned => Ret tt
  | Exited c => Raise (SystemExit c)
  | Crashed e => Raise (Error e)
  end.

Definition legacy_clauses (w : world) : list ((exn -> bool) * (exn -> M unit)) :=
  [ (isinstance_RequestException,
     Legacy.on_request_exception (recipe_id_of w) (input_data_of w)) ].

Definition legacy_written (recipe_id : string) (input_data : dict) (a : attempt)
    (fault : option string) (t : string) : list json :=
  match legacy_fields recipe_id input_data a, fault with
  | Some fields, None => [ JObj (("execution_time", JStr t) :: fields) ]
  | _, _ => []
  end.


(** The call ended in a parsed response or in an exception the one handler
    of [run_recipe.py] takes. *)
Definition legacy_handled (a : attempt) : bool :=
  match a with
  | Raised e => isinstance_RequestException e
  | Received _ => true
  end.

(** The four shapes of the data [run_recipe_v3.py] passes to [save_log]. *)
Inductive rube_shape (recipe_id : string) (input_data : dict) : dict -> Prop :=
| shape_failed (msg : string) :
    rube_shape recipe_id input_data (failed_data msg)
| shape_http_failed (r : response) :
    rube_shape recipe_id input_data (http_failed_data r)
| shape_started (execution_id : json) :
    rube_shape recipe_id input_data (started_data recipe_id input_data execution_id)
| shape_success (d : dict) :
    rube_shape recipe_id input_data (success_data recipe_id input_data d).


(** The exception the [try] block of either script ends with when the call
    itself raises, or when an accepted response cannot be parsed. *)
Definition call_raises (v : variant) (w : world) (e : exn) : Prop :=
  server w (request_of v w) = Raises e \/
  exists r,
    server w (request_of v w) = Responds r /\
    body r = Malformed e /\
    match v with
    | VLegacy => http_error_msg r = None
    | VRube => status_ok r = true
    end.

End Summaries.

(** ** Runs *)

(** [runs m w r w']: started in [w], [m] ends with [r] and leaves [w']. *)
Definition runs {A} (m : M A) (w : world) (r : result A) (w' : world) : Prop :=
  m w = (r, w').


(** ** Concrete worlds for the examples *)

(** A stand-in for Python's formatting; the theorems hold for every
    formatting. *)
Definition plain_formatting : Formatting :=
  {| json_dumps := fun _ v => type_name v;
     py_str := fun v => match v with JStr s => s | other => type_name other end |}.

Definition example_env : gmap string string :=
  list_to_map
    [ ("COMPOSIO_API_KEY", "key-1"); ("RECIPE_ID", "rcp_42");
      ("PROSPECT_SPREADSHEET_ID", "sheet-a"); ("LINE_LOG_SPREADSHEET_ID", "sheet-b");
      ("EMAIL_RECIPIENT", "owner@example.org") ].

(** A fresh process: nothing printed, sent or written yet, a service that
    always gives the same reply. *)
Definition example_world (env : gmap string string) (rep : reply) (fault : option string)
    : world :=
  mkWorld env (fun _ => "2025-01-01T09:00:00") (fun _ => rep) fault 0%nat [] [] None [].

Definition answer (code : Z) (b : parse) : reply :=
  Responds (mkResponse code "" "https://backend.composio.dev/" "" b).

(** The service answers 200 with the JSON array [[]]. *)
Definition array_reply_world : world :=
  example_world example_env (answer 200 (Parsed (JArr []))) None.

(** The same world with another clock. *)
Definition a_day_later (w : world) : world :=
  mkWorld (environ w) (fun _ => "2025-01-02T09:00:00") (server w) (disk_fault w)
          (ticks w) (stdout w) (sent w) (log_file w) (written w).


(** * Proofs *)

(** ** Dictionaries *)

Lemma dict_get_set_present (k k' : string) (v : json) (d : dict) :
  dict_get k d <> None -> dict_get k (dict_set k' v d) <> None.
Proof.
  induction d as [|[k0 v0] rest IH]; cbn; [contradiction|].
  destruct (String.eqb_spec k k0) as [->|Hk]; intros Hin;
    destruct (String.eqb_spec k' k0) as [->|Hk']; cbn.
  - now rewrite String.eqb_refl.
  - now rewrite String.eqb_refl.
  - destruct (String.eqb_spec k k0) as [->|_]; [contradiction|]. exact Hin.
  - destruct (String.eqb_spec k k0) as [->|_]; [contradiction|]. now apply IH.
Qed.

(** Two stores commute when the first key is already there (a new key would
    be appended, and the order of the appends would show). *)
Lemma dict_set_comm (k k' : string) (x v : json) (d : dict) :
  k <> k' -> dict_get k d <> None ->
  dict_set k x (dict_set k' v d) = dict_set k' v (dict_set k x d).
Proof.
  intros Hne. induction d as [|[k0 v0] rest IH]; cbn; [contradiction|].
  destruct (String.eqb_spec k k0) as [->|Hk]; intros Hin;
    destruct (String.eqb_spec k' k0) as [->|Hk']; cbn.
  - contradiction.
  - rewrite String.eqb_refl.
    destruct (String.eqb_spec k' k0) as [->|_]; [contradiction|]. reflexivity.
  - rewrite String.eqb_refl.
    destruct (String.eqb_spec k k0) as [->|_]; [contradiction|]. reflexivity.
  - destruct (String.eqb_spec k' k0) as [->|_]; [contradiction|].
    destruct (String.eqb_spec k k0) as [->|_]; [contradiction|].
    now rewrite IH.
Qed.

(** Overwriting a key that [d] has and [extra] does not bind commutes with
    the update. *)
Lemma dict_set_update (k : string) (x : json) (extra d : dict) :
  dict_get k extra = None -> dict_get k d <> None ->
  dict_set k x (dict_update d extra) = dict_update (dict_set k x d) extra.
Proof.
  unfold dict_update. revert d.
  induction extra as [|[k0 v0] rest IH]; intros d Hk Hin; cbn in *.
  - reflexivity.
  - destruct (String.eqb_spec k k0) as [->|Hne]; [discriminate|].
    rewrite IH by (try apply dict_get_set_present; assumption).
    now rewrite dict_set_comm.
Qed.

(** ** Configuration *)

Lemma env_given_false_iff (w : world) (k : string) :
  env_given w k = false <-> missing w k.
Proof.
  unfold env_given, missing. destruct (environ w !! k) as [v|].
  - rewrite negb_false_iff. split.
    + intros Hv. right. f_equal. now apply String.eqb_eq.
    + intros [Hn|Hs]; [discriminate|]. injection Hs as ->. reflexivity.
  - split; auto.
Qed.

Lemma given_py_not (w : world) (k : string) :
  env_given w k = true -> py_not (environ w !! k) = false.
Proof.
  unfold env_given, py_not. destruct (environ w !! k) as [v|]; [|discriminate].
  cbn. now intros ->.
Qed.

Lemma given_default (w : world) (k : string) :
  env_given w k = true -> truthy (JStr (default "" (environ w !! k))) = true.
Proof.
  unfold env_given. destruct (environ w !! k) as [v|]; [|discriminate]. now cbn.
Qed.

Lemma given_of_opt_str (w : world) (k : string) :
  env_given w k = true ->
  of_opt_str (environ w !! k) = JStr (the_str (environ w !! k)).
Proof.
  unfold env_given. now destruct (environ w !! k).
Qed.

Lemma missing_py_not (w : world) (k : string) :
  env_given w k = false -> py_not (environ w !! k) = true.
Proof.
  unfold env_given, py_not. destruct (environ w !! k) as [v|]; [|reflexivity].
  cbn. now intros ->.
Qed.

Lemma missing_default (w : world) (k : string) :
  env_given w k = false -> truthy (JStr (default "" (environ w !! k))) = false.
Proof.
  unfold env_given. destruct (environ w !! k) as [v|]; [|reflexivity]. now cbn.
Qed.

(** ** Rules for runs *)

Lemma runs_bind_ret {A B} (m : M A) (k : A -> M B) w a w1 r w2 :
  runs m w (Ret a) w1 -> runs (k a) w1 r w2 -> runs (bind m k) w r w2.
Proof. unfold runs, bind. intros ->. auto. Qed.

Lemma runs_bind_raise {A B} (m : M A) (k : A -> M B) w s w1 :
  runs m w (Raise s) w1 -> runs (bind m k) w (Raise s) w1.
Proof. unfold runs, bind. now intros ->. Qed.

Lemma runs_ret {A} (a : A) w : runs (ret a) w (Ret a) w.
Proof. reflexivity. Qed.

Lemma runs_raise {A} e w : runs (@raise A e) w (Raise (Error e)) w.
Proof. reflexivity. Qed.

Lemma runs_sys_exit {A} c w : runs (@sys_exit A c) w (Raise (SystemExit c)) w.
Proof. reflexivity. Qed.

Lemma runs_getenv k w : runs (getenv k) w (Ret (environ w !! k)) w.
Proof. reflexivity. Qed.

Lemma runs_getenv_default k d w :
  runs (getenv_default k d) w (Ret (default d (environ w !! k))) w.
Proof. reflexivity. Qed.

Lemma runs_now w :
  runs now_isoformat w (Ret (clock w (ticks w))) (set_ticks (S (ticks w)) w).
Proof. reflexivity. Qed.

Lemma runs_print line w :
  runs (print line) w (Ret tt) (set_stdout (stdout w ++ [line]) w).
Proof. reflexivity. Qed.

Lemma runs_post_raises rq w e :
  server w rq = Raises e ->
  runs (requests_post rq) w (Raise (Error e)) (set_sent (sent w ++ [rq]) w).
Proof. unfold runs, requests_post. now intros ->. Qed.

Lemma runs_post_responds rq w r :
  server w rq = Responds r ->
  runs (requests_post rq) w (Ret r) (set_sent (sent w ++ [rq]) w).
Proof. unfold runs, requests_post. now intros ->. Qed.

Lemma runs_json_parsed r v w :
  body r = Parsed v -> runs (response_json r) w (Ret v) w.
Proof. unfold runs, response_json. now intros ->. Qed.

Lemma runs_json_malformed r e w :
  body r = Malformed e -> runs (response_json r) w (Raise (Error e)) w.
Proof. unfold runs, response_json. now intros ->. Qed.

Lemma runs_status_fine `{Formatting} r w :
  http_error_msg r = None -> runs (raise_for_status r) w (Ret tt) w.
Proof. unfold runs, raise_for_status. now intros ->. Qed.

Lemma runs_status_error `{Formatting} r m w :
  http_error_msg r = Some m ->
  runs (raise_for_status r) w (Raise (Error (RequestException m))) w.
Proof. unfold runs, raise_for_status. now intros ->. Qed.

Lemma runs_get_dict o k d w :
  runs (py_get (JObj o) k d) w (Ret (default d (dict_get k o))) w.
Proof. reflexivity. Qed.

Lemma runs_get_other x k d w :
  is_dict x = false ->
  runs (py_get x k d) w (Raise (Error (OtherException (no_get x)))) w.
Proof. destruct x; try discriminate; reflexivity. Qed.

Lemma runs_try_ret {A} (body : M A) clauses w a w' :
  runs body w (Ret a) w' -> runs (try_except body clauses) w (Ret a) w'.
Proof. unfold runs, try_except. now intros ->. Qed.

Lemma runs_try_exit {A} (body : M A) clauses w c w' :
  runs body w (Raise (SystemExit c)) w' ->
  runs (try_except body clauses) w (Raise (SystemExit c)) w'.
Proof. unfold runs, try_except. now intros ->. Qed.

Lemma runs_try_error {A} (body : M A) clauses w e w1 r w2 :
  runs body w (Raise (Error e)) w1 ->
  runs (select_handler clauses e) w1 r w2 ->
  runs (try_except body clauses) w r w2.
Proof. unfold runs, try_except. now intros ->. Qed.

Lemma runs_dump_ok `{Formatting} v w :
  disk_fault w = None ->
  runs (dump_log_file v) w (Ret tt) (set_log (json_dumps false v) v w).
Proof. unfold runs, dump_log_file. now intros ->. Qed.

Lemma runs_dump_fault `{Formatting} v w m :
  disk_fault w = Some m ->
  runs (dump_log_file v) w (Raise (Error (OtherException m))) w.
Proof. unfold runs, dump_log_file. now intros ->. Qed.

Lemma runs_main_exit script w c w' :
  runs script w (Raise (SystemExit c)) w' -> run_main script w = (Exited c, w').
Proof. unfold runs, run_main. now intros ->. Qed.

Lemma runs_main_crash script w e w' :
  runs script w (Raise (Error e)) w' -> run_main script w = (Crashed e, w').
Proof. unfold runs, run_main. now intros ->. Qed.

(** *** Symbolic execution *)

(** Bring the world reached so far into the form of a record of fields. *)
Ltac world_simpl :=
  cbv [set_ticks set_stdout set_sent set_log];
  cbn [environ clock server disk_fault ticks stdout sent log_file written].

(** Settle the condition of an [if] from the equations at hand. *)
Ltac decide_cond :=
  world_simpl;
  repeat match goal with
  | E : ?c = true |- context [if ?c then _ else _] => rewrite E
  | E : ?c = false |- context [if ?c then _ else _] => rewrite E
  | E : ?c = true |- context [negb ?c] => rewrite E
  | E : ?c = false |- context [negb ?c] => rewrite E
  | E : ?c = _ |- context [?c || _] => rewrite E
  | E : ?c = _ |- context [_ || ?c] => rewrite E
  end;
  cbn [negb orb andb].

(** Replace a value read from a dict by what is known of it. *)
Ltac subst_known :=
  repeat match goal with
  | E : default ?a ?b = _ |- context [default ?a ?b] => rewrite E
  end.

Ltac head_of m :=
  lazymatch m with
  | ?f _ => head_of f
  | _ => m
  end.

(** Steps for the functions of a script that have a lemma of their own. *)
Ltac run_known := fail.

(** Derive [runs m w ?r ?w'] by following [m]. *)
Ltac run :=
  first [ run_known | run_structural ]
with run_structural :=
  lazymatch goal with
  | |- runs (bind _ _) _ _ _ =>
      first [ eapply runs_bind_ret; [ run | cbv beta; world_simpl; subst_known; run ]
            | eapply runs_bind_raise; run ]
  | |- runs (ret _) _ _ _ => apply runs_ret
  | |- runs (raise _) _ _ _ => apply runs_raise
  | |- runs (sys_exit _) _ _ _ => apply runs_sys_exit
  | |- runs (getenv _) _ _ _ => apply runs_getenv
  | |- runs (getenv_default _ _) _ _ _ => apply runs_getenv_default
  | |- runs now_isoformat _ _ _ => apply runs_now
  | |- runs (print _) _ _ _ => apply runs_print
  | |- runs (requests_post _) _ _ _ =>
      first [ apply runs_post_responds | apply runs_post_raises ];
      world_simpl; eassumption
  | |- runs (response_json _) _ _ _ =>
      first [ apply runs_json_parsed | apply runs_json_malformed ]; eassumption
  | |- runs (raise_for_status _) _ _ _ =>
      first [ apply runs_status_fine | eapply runs_status_error ]; eassumption
  | |- runs (py_get (JObj _) _ _) _ _ _ => apply runs_get_dict
  | |- runs (py_get ?x _ _) _ _ _ =>
      first [ apply runs_get_other; first [ reflexivity | eassumption ]
            | match goal with E : x = _ |- _ => rewrite E end; run ]
  | |- runs (dump_log_file _) _ _ _ =>
      first [ apply runs_dump_ok | eapply runs_dump_fault ]; world_simpl; eassumption
  | |- runs (try_except _ _) _ _ _ =>
      first [ eapply runs_try_ret; run
            | eapply runs_try_exit; run
            | eapply runs_try_error;
              [ run
              | cbn [select_handler isinstance_Timeout isinstance_RequestException
                     isinstance_Exception]; run ] ]
  | |- runs (if _ then _ else _) _ _ _ => progress decide_cond; run
  | |- runs (let _ := _ in _) _ _ _ => cbv zeta; run
  | |- runs ?m _ _ _ => let h := head_of m in unfold h; run
  end.

(** Turn [configured v w = true] into the equations the checks of the
    scripts are decided by. *)
Ltac given_facts :=
  repeat match goal with
  | Hc : configured _ _ = true |- _ =>
      cbn [configured checked_fields required_fields forallb] in Hc
  | Hc : _ && _ = true |- _ => apply andb_true_iff in Hc; destruct Hc
  end;
  repeat match goal with
  | Hc : env_given ?w ?k = true |- _ =>
      pose proof (given_py_not w k Hc);
      pose proof (given_default w k Hc);
      pose proof (given_of_opt_str w k Hc);
      clear Hc
  end.

Ltac missing_facts :=
  repeat match goal with
  | Hc : env_given ?w ?k = false |- _ =>
      pose proof (missing_py_not w k Hc);
      pose proof (missing_default w k Hc);
      clear Hc
  end.

Section Scripts.
Context `{Formatting}.

(** ** [run_recipe_v3.py] *)

(** [save_log] never raises: it writes the record, or reports that it could
    not. *)
Lemma save_log_cases (data : dict) (w : world) :
  (disk_fault w = None /\
   runs (Rube.save_log data) w (Ret tt)
     (mkWorld (environ w) (clock w) (server w) (disk_fault w) (S (S (ticks w)))
        (stdout w ++ ["[" +:+ clock w (S (ticks w)) +:+ "] " +:+
                      "Execution log saved to execution_log.json"])
        (sent w)
        (Some (json_dumps false
                 (log_record (clock w (ticks w)) (of_opt_str (environ w !! "RECIPE_ID")) data)))
        (written w ++
           [log_record (clock w (ticks w)) (of_opt_str (environ w !! "RECIPE_ID")) data]))) \/
  (exists m, disk_fault w = Some m /\
   runs (Rube.save_log data) w (Ret tt)
     (mkWorld (environ w) (clock w) (server w) (disk_fault w) (S (S (ticks w)))
        (stdout w ++ ["[" +:+ clock w (S (ticks w)) +:+ "] " +:+
                      "Warning: Failed to save log: " +:+ m])
        (sent w) (log_file w) (written w))).
Proof.
  destruct (disk_fault w) as [m|] eqn:Hd.
  - right. exists m. split; [reflexivity|]. rewrite <- Hd. run.
  - left. split; [reflexivity|]. rewrite <- Hd. run.
Qed.

Lemma save_log_runs (data : dict) (w : world) :
  runs (Rube.save_log data) w (Ret tt)
    (mkWorld (environ w) (clock w) (server w) (disk_fault w) (S (S (ticks w)))
       (stdout (after_save_log data w)) (sent w)
       (log_file (after_save_log data w)) (written (after_save_log data w))).
Proof.
  unfold after_save_log.
  destruct (save_log_cases data w) as [[_ Hr]|(m & _ & Hr)];
    unfold runs in *; now rewrite Hr.
Qed.

Lemma after_save_log_ok (data : dict) (w : world) :
  disk_fault w = None ->
  exists t,
    written (after_save_log data w) =
      written w ++ [log_record t (of_opt_str (environ w !! "RECIPE_ID")) data] /\
    log_file (after_save_log data w) =
      Some (json_dumps false
              (log_record t (of_opt_str (environ w !! "RECIPE_ID")) data)).
Proof.
  intros Hd. unfold after_save_log.
  destruct (save_log_cases data w) as [[_ Hr]|(m & Hm & _)]; [|congruence].
  unfold runs in Hr. rewrite Hr. eexists. split; reflexivity.
Qed.

Lemma after_save_log_fault (data : dict) (w : world) (m : string) :
  disk_fault w = Some m ->
  written (after_save_log data w) = written w /\
  log_file (after_save_log data w) = log_file w /\
  exists t, In ("[" +:+ t +:+ "] " +:+ "Warning: Failed to save log: " +:+ m)
               (stdout (after_save_log data w)).
Proof.
  intros Hd. unfold after_save_log.
  destruct (save_log_cases data w) as [[Hn _]|(m' & Hm & Hr)]; [congruence|].
  assert (m' = m) as -> by congruence.
  unfold runs in Hr. rewrite Hr. repeat split. eexists.
  cbn [stdout snd]. apply in_or_app. right. left. reflexivity.
Qed.

Ltac run_known ::=
  lazymatch goal with
  | |- runs (Rube.save_log _) _ _ _ => apply save_log_runs
  end.

(** Up to the [try] block: with the five fields given, the script announces
    itself and goes on to the call. *)
Lemma rube_prelude (w : world) :
  configured VRube w = true ->
  exists w1,
    (forall r w',
       runs (try_except
               (Rube.call_api (recipe_id_of w) (input_data_of w) (request_of VRube w))
               rube_clauses) w1 r w' ->
       runs Rube.run_recipe w r w') /\
    quiet w w1.
Proof.
  intros Hc. given_facts.
  eexists. split.
  - intros r w' Hr. unfold Rube.run_recipe.
    do 17 (eapply runs_bind_ret; [run | cbv beta; world_simpl]).
    cbv zeta. exact Hr.
  - repeat split.
Qed.

Ltac in_stdout :=
  world_simpl;
  first [ assumption
        | repeat (apply in_or_app; left); assumption ].

Ltac saved_here :=
  world_simpl;
  split; [reflexivity|]; split; [reflexivity|]; split; [reflexivity|];
  intros line Hline; in_stdout.

Ltac rube_case :=
  do 2 eexists;
  split; [ run | split; [ saved_here | world_simpl; repeat split; congruence ] ].

(** The [try] block and its handlers: whatever the service does, [save_log]
    runs once, with the data of [rube_saved], and the script exits. *)
Lemma rube_try (w w1 : world) :
  quiet w w1 ->
  exists w0 w',
    runs (try_except
            (Rube.call_api (recipe_id_of w) (input_data_of w) (request_of VRube w))
            rube_clauses) w1
         (Raise (SystemExit
            (rube_exit (rube_saved (recipe_id_of w) (input_data_of w)
                                   (server w (request_of VRube w))))))
         w' /\
    saved_at (rube_saved (recipe_id_of w) (input_data_of w)
                         (server w (request_of VRube w))) w0 w' /\
    environ w0 = environ w /\ disk_fault w0 = disk_fault w /\
    sent w0 = sent w ++ [request_of VRube w] /\
    log_file w0 = log_file w /\ written w0 = written w.
Proof.
  intros (Henv & Hsrv & Hdisk & Hsent & Hfile & Hwr).
  unfold saved_at, rube_clauses.
  destruct (server w (request_of VRube w)) as [e|r] eqn:Hs; rewrite <- Hsrv in Hs;
    cbn [rube_saved].
  - destruct e; cbn [rube_on_error]; rube_case.
  - unfold status_ok, http_failed_data.
    destruct ((status_code r =? 200) || (status_code r =? 201)) eqn:Hok;
      cbn [negb]; [|rube_case].
    destruct (body r) as [v|e] eqn:Hb.
    + destruct v as [ | b | z | bits | s | items | o ]; try rube_case.
      unfold execution_id_of, data_of, started_data, success_data.
      destruct (truthy (default JNull (dict_get "execution_id" o))) eqn:Ht; [rube_case|].
      destruct (default (JObj o) (dict_get "data" o))
        as [ | b | z | bits | s | items | d ] eqn:Hdata; try rube_case.
      destruct (truthy (default JNull (dict_get "spreadsheet_updated" d))) eqn:Hsheet;
        destruct (truthy (default JNull (dict_get "email_sent" d))) eqn:Hmail;
        rube_case.
    + destruct e; cbn [rube_on_error]; rube_case.
Qed.

(** The whole run of [run_recipe_v3.py] on a configured world. *)
Lemma rube_run (w : world) :
  configured VRube w = true ->
  exists w',
    run_main Rube.run_recipe w =
      (Exited (rube_exit (rube_saved (recipe_id_of w) (input_data_of w)
                                     (server w (request_of VRube w)))), w') /\
    sent w' = sent w ++ [request_of VRube w] /\
    match disk_fault w with
    | None => exists t,
        written w' =
          written w ++ [log_record t (JStr (recipe_id_of w))
                          (rube_saved (recipe_id_of w) (input_data_of w)
                                      (server w (request_of VRube w)))] /\
        log_file w' =
          Some (json_dumps false
                  (log_record t (JStr (recipe_id_of w))
                     (rube_saved (recipe_id_of w) (input_data_of w)
                                 (server w (request_of VRube w)))))
    | Some m =>
        written w' = written w /\ log_file w' = log_file w /\
        exists t, In ("[" +:+ t +:+ "] " +:+ "Warning: Failed to save log: " +:+ m)
                     (stdout w')
    end.
Proof.
  intros Hc.
  destruct (rube_prelude w Hc) as (w1 & Hpre & Hq).
  destruct (rube_try w w1 Hq) as (w0 & w' & Hrun & Hsaved & Henv & Hdisk & Hsent & Hfile & Hwr).
  destruct Hsaved as (Sw & Sf & Ss & Sout).
  exists w'. split; [apply runs_main_exit, Hpre, Hrun|].
  split; [congruence|].
  assert (Hrid : of_opt_str (environ w0 !! "RECIPE_ID") = JStr (recipe_id_of w)).
  { rewrite Henv. apply given_of_opt_str.
    cbn [configured checked_fields required_fields forallb] in Hc.
    repeat (apply andb_true_iff in Hc; destruct Hc as [? Hc]). assumption. }
  destruct (disk_fault w) as [m|] eqn:Hd.
  - destruct (after_save_log_fault
                (rube_saved (recipe_id_of w) (input_data_of w)
                            (server w (request_of VRube w))) w0 m ltac:(congruence))
      as (Fw & Ff & t & Hin).
    repeat split; [congruence | congruence |]. exists t. now apply Sout.
  - destruct (after_save_log_ok
                (rube_saved (recipe_id_of w) (input_data_of w)
                            (server w (request_of VRube w))) w0 ltac:(congruence))
      as (t & Fw & Ff).
    exists t. rewrite Hrid in Fw, Ff. split; congruence.
Qed.

(** ** [run_recipe.py] *)

(** Up to the [try] block. *)
Lemma legacy_prelude (w : world) :
  configured VLegacy w = true ->
  exists w1,
    (forall r w',
       runs (try_except
               (Legacy.call_api (recipe_id_of w) (input_data_of w) (request_of VLegacy w))
               (legacy_clauses w)) w1 r w' ->
       runs Legacy.run_recipe w r w') /\
    quiet w w1.
Proof.
  intros Hc. given_facts.
  eexists. split.
  - intros r w' Hr. unfold Legacy.run_recipe.
    do 13 (eapply runs_bind_ret; [run | cbv beta; world_simpl]).
    cbv zeta. exact Hr.
  - repeat split.
Qed.

Ltac verdict_here :=
  let o' := fresh "o'" in
  let Ho := fresh "Ho" in
  let Hn := fresh "Hn" in
  intros o' Ho Hn;
  first [ discriminate Ho
        | discriminate Hn
        | injection Ho as <-;
          unfold legacy_verdict, legacy_success;
          repeat match goal with
                 | E : ?c = _ |- context [?c] => rewrite E
                 end;
          cbn [orb]; eexists; reflexivity ].

Ltac legacy_case :=
  eexists; split;
  [ run
  | world_simpl; cbv beta iota;
    split; [ congruence | ];
    split; [ verdict_here | ];
    first [ exists ""; rewrite app_nil_r; split; congruence
          | eexists; split; reflexivity ] ].

(** The [try] block and its one handler, by reply and state of the disk. *)
Lemma legacy_try (w w1 : world) :
  quiet w w1 ->
  exists w',
    runs (try_except
            (Legacy.call_api (recipe_id_of w) (input_data_of w) (request_of VLegacy w))
            (legacy_clauses w)) w1
         (result_of (legacy_end (legacy_attempt (server w (request_of VLegacy w)))
                                (disk_fault w)))
         w' /\
    sent w' = sent w ++ [request_of VLegacy w] /\
    (forall o,
       legacy_attempt (server w (request_of VLegacy w)) = Received (JObj o) ->
       disk_fault w = None ->
       exists pre, stdout w' = pre ++ [legacy_verdict o]) /\
    exists t,
      written w' = written w ++
        legacy_written (recipe_id_of w) (input_data_of w)
          (legacy_attempt (server w (request_of VLegacy w))) (disk_fault w) t /\
      log_file w' =
        match legacy_written (recipe_id_of w) (input_data_of w)
                (legacy_attempt (server w (request_of VLegacy w))) (disk_fault w) t with
        | [] => log_file w
        | rec :: _ => Some (json_dumps false rec)
        end.
Proof.
  intros (Henv & Hsrv & Hdisk & Hsent & Hfile & Hwr).
  unfold legacy_clauses, legacy_written.
  rewrite <- Hwr, <- Hfile, <- Hsent.
  destruct (disk_fault w) as [m|] eqn:Hd; rewrite <- Hdisk in Hd;
  (destruct (server w (request_of VLegacy w)) as [e|r] eqn:Hs; rewrite <- Hsrv in Hs;
    cbn [legacy_attempt];
  [ destruct e;
    cbn [legacy_end legacy_fields isinstance_RequestException str_exn result_of];
    legacy_case
  | destruct (http_error_msg r) as [hm|] eqn:Hhttp;
    [ cbn [legacy_end legacy_fields isinstance_RequestException str_exn result_of];
      legacy_case
    | destruct (body r) as [v|e] eqn:Hb;
      [ | destruct e;
          cbn [legacy_end legacy_fields isinstance_RequestException str_exn result_of];
          legacy_case ] ] ]).
  - cbn [legacy_end legacy_fields result_of]. legacy_case.
  - cbn [legacy_end legacy_fields].
    destruct v as [ | b | z | bits | s | items | o ]; cbn [is_dict result_of];
      try legacy_case.
    destruct (truthy (default JNull (dict_get "success" o))) eqn:Hsucc; [legacy_case|].
    destruct (eq_str (default JNull (dict_get "status" o)) "success") eqn:Hst; legacy_case.
Qed.

Lemma runs_main_end (m : M unit) (w : world) (t : termination) (w' : world) :
  t <> Returned -> runs m w (result_of t) w' -> run_main m w = (t, w').
Proof.
  unfold runs, run_main. intros Ht ->. destruct t; [contradiction| |]; reflexivity.
Qed.

Lemma legacy_end_not_returned (a : attempt) (fault : option string) :
  legacy_end a fault <> Returned.
Proof.
  destruct a as [e|v], fault as [m|]; cbn;
    try destruct (isinstance_RequestException e); try destruct (is_dict v); discriminate.
Qed.

(** The whole run of [run_recipe.py] on a configured world. *)
Lemma legacy_run (w : world) :
  configured VLegacy w = true ->
  exists w',
    run_main Legacy.run_recipe w =
      (legacy_end (legacy_attempt (server w (request_of VLegacy w))) (disk_fault w), w') /\
    sent w' = sent w ++ [request_of VLegacy w] /\
    (forall o,
       legacy_attempt (server w (request_of VLegacy w)) = Received (JObj o) ->
       disk_fault w = None ->
       exists pre, stdout w' = pre ++ [legacy_verdict o]) /\
    exists t,
      written w' = written w ++
        legacy_written (recipe_id_of w) (input_data_of w)
          (legacy_attempt (server w (request_of VLegacy w))) (disk_fault w) t /\
      log_file w' =
        match legacy_written (recipe_id_of w) (input_data_of w)
                (legacy_attempt (server w (request_of VLegacy w))) (disk_fault w) t with
        | [] => log_file w
        | rec :: _ => Some (json_dumps false rec)
        end.
Proof.
  intros Hc.
  destruct (legacy_prelude w Hc) as (w1 & Hpre & Hq).
  destruct (legacy_try w w1 Hq) as (w' & Hrun & Hrest).
  exists w'. split; [|exact Hrest].
  apply runs_main_end; [apply legacy_end_not_returned|]. apply Hpre, Hrun.
Qed.

(** ** Before the call: a missing field *)

Lemma rube_unconfigured (w : world) :
  configured VRube w = false ->
  exists w',
    run_main Rube.run_recipe w = (Exited 1, w') /\
    sent w' = sent w /\ written w' = written w /\ log_file w' = log_file w.
Proof.
  cbn [configured checked_fields required_fields forallb].
  intros Hc.
  destruct (env_given w "COMPOSIO_API_KEY") eqn:H1;
    [destruct (env_given w "RECIPE_ID") eqn:H2;
      [destruct (env_given w "PROSPECT_SPREADSHEET_ID") eqn:H3;
        [destruct (env_given w "LINE_LOG_SPREADSHEET_ID") eqn:H4;
          [destruct (env_given w "EMAIL_RECIPIENT") eqn:H5; [discriminate|] |] |] |] |];
    given_facts; missing_facts;
    (eexists; split; [apply runs_main_exit; run | world_simpl; repeat split]).
Qed.

Lemma legacy_unconfigured (w : world) :
  configured VLegacy w = false ->
  exists w',
    run_main Legacy.run_recipe w = (Exited 1, w') /\
    sent w' = sent w /\ written w' = written w /\ log_file w' = log_file w.
Proof.
  cbn [configured checked_fields forallb].
  intros Hc.
  destruct (env_given w "COMPOSIO_API_KEY") eqn:H1;
    [destruct (env_given w "RECIPE_ID") eqn:H2; [discriminate|] |];
    given_facts; missing_facts;
    (eexists; split; [apply runs_main_exit; run | world_simpl; repeat split]).
Qed.

(** * The claims *)

Lemma no_record_without_write (l : list json) (rec : json) : l <> l ++ [rec].
Proof.
  intros E. apply (f_equal (@length json)) in E. rewrite length_app in E. cbn in E. lia.
Qed.

(** ** The Rube client and the body of a 200/201 response *)

(** C10.  For the v-rube client, a 200/201 response whose body parses to a
    JSON value that is not an object does not crash the process: the error
    of reading a field of it is caught by the catch-all handler, a record
    with status [failed] and a reason that begins [Unexpected error] is
    written, and the process exits with code 1; no record with status
    [success] is written for such a body. *)
Theorem rube_non_object_body_fails (w : world) (r : response) (v : json) :
  configured VRube w = true ->
  server w (request_of VRube w) = Responds r ->
  status_ok r = true ->
  body r = Parsed v ->
  is_dict v = false ->
  exists w',
    run_main Rube.run_recipe w = (Exited 1, w') /\
    (disk_fault w = None ->
     exists t,
       written w' = written w ++
         [ JObj [ ("execution_time", JStr t);
                  ("recipe_id", JStr (recipe_id_of w));
                  ("status", JStr "failed");
                  ("error", JStr ("Unexpected error: " +:+ no_get v)) ] ]) /\
    (forall rec,
       written w' = written w ++ [rec] ->
       record_field "status" rec <> Some (JStr "success")).
Proof.
  intros Hc Hs Hok Hb Hv.
  destruct (rube_run w Hc) as (w' & Hrun & _ & Hlog).
  rewrite Hs in Hrun, Hlog. cbn [rube_saved] in Hrun, Hlog.
  rewrite Hok, Hb in Hrun, Hlog. cbn [negb] in Hrun, Hlog.
  assert (Hdata : match v with
                  | JObj o =>
                      if truthy (execution_id_of o)
                      then started_data (recipe_id_of w) (input_data_of w) (execution_id_of o)
                      else
                        match data_of o with
                        | JObj d => success_data (recipe_id_of w) (input_data_of w) d
                        | data => failed_data ("Unexpected error: " +:+ no_get data)
                        end
                  | _ => failed_data ("Unexpected error: " +:+ no_get v)
                  end = failed_data ("Unexpected error: " +:+ no_get v)).
  { destruct v; try discriminate; reflexivity. }
  rewrite Hdata in Hrun, Hlog. clear Hdata.
  exists w'. split; [exact Hrun|].
  destruct (disk_fault w) as [m|].
  - destruct Hlog as (Hw & _). split; [discriminate|].
    intros rec Hrec. rewrite Hw in Hrec. now apply no_record_without_write in Hrec.
  - destruct Hlog as (t & Hw & _). split.
    + intros _. exists t. exact Hw.
    + intros rec Hrec. rewrite Hw in Hrec. apply app_inv_head in Hrec.
      injection Hrec as <-. cbn. discriminate.
Qed.




Lemma log_record_http_failed (t rid : string) (r : response) :
  log_record t (JStr rid) (http_failed_data r) =
  JObj [ ("execution_time", JStr t); ("recipe_id", JStr rid);
         ("status", JStr "failed");
         ("error", JStr ("API request failed with status " +:+ py_str (JInt (status_code r))));
         ("response", JStr (text r));
         ("status_code", JInt (status_code r)) ].
Proof. reflexivity. Qed.



(** ** Before the call *)

Lemma missing_unconfigured (v : variant) (w : world) (k : string) :
  In k (checked_fields v) -> missing w k -> configured v w = false.
Proof.
  intros Hin Hk. apply env_given_false_iff in Hk.
  unfold configured. destruct (forallb (env_given w) (checked_fields v)) eqn:Hall; [|reflexivity].
  rewrite forallb_forall in Hall. specialize (Hall k Hin). congruence.
Qed.

Lemma unconfigured_stops (v : variant) (w : world) :
  configured v w = false ->
  exists w',
    run_main (script v) w = (Exited 1, w') /\
    sent w' = sent w /\ written w' = written w /\ log_file w' = log_file w.
Proof.
  destruct v; [apply legacy_unconfigured | apply rube_unconfigured].
Qed.

(** C2 (as amended).  In either variant, when one of the fields the variant
    checks is absent or empty (all five required fields for v-rube; the api
    key and the recipe id for v-legacy), the process exits with code 1
    before any network call: no request is sent and the log file is not
    touched. *)
Theorem missing_field_stops_before_call (v : variant) (w : world) (k : string) :
  In k (checked_fields v) ->
  missing w k ->
  exists w',
    run_main (script v) w = (Exited 1, w') /\
    sent w' = sent w /\ written w' = written w /\ log_file w' = log_file w.
Proof.
  intros Hin Hk. apply unconfigured_stops. now apply missing_unconfigured with k.
Qed.

(** ** Status codes *)

Lemma http_error_msg_in_range (r : response) :
  400 <= status_code r < 600 ->
  http_error_msg r =
    Some (py_str (JInt (status_code r)) +:+
          (if status_code r <? 500 then " Client Error: " else " Server Error: ") +:+
          reason r +:+ " for url: " +:+ url r).
Proof.
  intros [Hlo Hhi]. unfold http_error_msg.
  destruct (Z.ltb_spec (status_code r) 500) as [Hc|Hs].
  - replace (400 <=? status_code r) with true by (symmetry; now apply Z.leb_le).
    reflexivity.
  - replace (400 <=? status_code r) with true by (symmetry; now apply Z.leb_le).
    cbn [andb].
    replace (500 <=? status_code r) with true by (symmetry; now apply Z.leb_le).
    replace (status_code r <? 600) with true by (symmetry; now apply Z.ltb_lt).
    reflexivity.
Qed.


(** C3 (as amended).  For v-rube, every response whose status code is not
    200 or 201 is a failure: the record has status [failed] and carries the
    numeric status and the raw body text, and the exit code is 1.  For
    v-legacy the test is the one of [raise_for_status]: every response with
    a status from 400 to 599 is a failure with exit code 1, and its record
    has status [failed] and carries the error message of the HTTP error
    (which begins with the status code), with no separate field for the
    status or the raw body. *)
Theorem http_error_is_failed :
  (forall (w : world) (r : response),
     configured VRube w = true ->
     server w (request_of VRube w) = Responds r ->
     status_ok r = false ->
     exists w',
       run_main Rube.run_recipe w = (Exited 1, w') /\
       (disk_fault w = None ->
        exists t,
          written w' = written w ++
            [ JObj [ ("execution_time", JStr t);
                     ("recipe_id", JStr (recipe_id_of w));
                     ("status", JStr "failed");
                     ("error", JStr ("API request failed with status " +:+
                                     py_str (JInt (status_code r))));
                     ("response", JStr (text r));
                     ("status_code", JInt (status_code r)) ] ])) /\
  (forall (w : world) (r : response),
     configured VLegacy w = true ->
     server w (request_of VLegacy w) = Responds r ->
     400 <= status_code r < 600 ->
     exists t w',
       run_main Legacy.run_recipe w = (t, w') /\
       exit_status t = 1 /\
       (disk_fault w = None ->
        t = Exited 1 /\
        exists time,
          written w' = written w ++
            [ JObj [ ("execution_time", JStr time);
                     ("recipe_id", JStr (recipe_id_of w));
                     ("input", JObj (input_data_of w));
                     ("error",
                      JStr (py_str (JInt (status_code r)) +:+
                            (if status_code r <? 500
                             then " Client Error: " else " Server Error: ") +:+
                            reason r +:+ " for url: " +:+ url r));
                     ("status", JStr "failed") ] ])).
Proof.
  split.
  - intros w r Hc Hs Hok.
    destruct (rube_run w Hc) as (w' & Hrun & _ & Hlog).
    rewrite Hs in Hrun, Hlog. cbn [rube_saved] in Hrun, Hlog.
    rewrite Hok in Hrun, Hlog. cbn [negb] in Hrun, Hlog.
    exists w'. split; [exact Hrun|].
    intros Hd. rewrite Hd in Hlog. destruct Hlog as (t & Hw & _).
    exists t. now rewrite <- log_record_http_failed.
  - intros w r Hc Hs Hrange.
    destruct (legacy_run w Hc) as (w' & Hrun & _ & _ & t & Hw & _).
    rewrite Hs in Hrun, Hw. cbn [legacy_attempt] in Hrun, Hw.
    rewrite (http_error_msg_in_range r Hrange) in Hrun, Hw.
    eexists. exists w'. split; [exact Hrun|]. split.
    + destruct (disk_fault w); reflexivity.
    + intros Hd. rewrite Hd in Hw |- *. split; [reflexivity|].
      exists t. exact Hw.
Qed.

(** ** The shapes of a record *)

Lemma rube_saved_shape (recipe_id : string) (input_data : dict) (rep : reply) :
  rube_shape recipe_id input_data (rube_saved recipe_id input_data rep).
Proof.
  destruct rep as [e|r]; cbn [rube_saved].
  - destruct e; constructor.
  - destruct (negb (status_ok r)); [constructor|].
    destruct (body r) as [v|e]; [|destruct e; constructor].
    destruct v; try constructor.
    destruct (truthy (execution_id_of fields)); [constructor|].
    destruct (data_of fields); constructor.
Qed.

(** Every record of [run_recipe_v3.py] echoes the recipe id; it echoes the
    input unless its status is [failed]; it binds [execution_time] once. *)
Lemma rube_record_fields (t recipe_id : string) (input_data data : dict) :
  rube_shape recipe_id input_data data ->
  let rec := log_record t (JStr recipe_id) data in
  record_field "recipe_id" rec = Some (JStr recipe_id) /\
  (record_field "status" rec = Some (JStr "failed") -> record_field "input" rec = None) /\
  (record_field "status" rec <> Some (JStr "failed") ->
   record_field "input" rec = Some (JObj input_data)) /\
  (record_field "status" rec = Some (JStr "failed") \/
   record_field "status" rec = Some (JStr "started") \/
   record_field "status" rec = Some (JStr "success")) /\
  dict_get "execution_time" data = None.
Proof.
  intros [msg|r|eid|d]; cbn; repeat split; auto; try discriminate; try contradiction.
Qed.

(** ** The legacy client and a body that is not an object *)


(** ** The log file *)

Lemma one_record (l : list json) (a b : json) : l ++ [a] = l ++ [b] -> a = b.
Proof. intros E. apply app_inv_head in E. now injection E. Qed.


(** ** A log file that cannot be written *)

(** C7 (as amended).  In v-rube a failure to write the log file is reported
    as a warning and changes nothing else: the exit code is the one the
    same run has with a working disk.  In v-legacy the write is not
    guarded: when the log file cannot be written, a run that gets as far as
    writing its record ends with the uncaught error of the write, exit
    status 1, whatever the outcome of the call. *)
Theorem log_write_failure :
  (forall (w : world) (m : string),
     configured VRube w = true ->
     exists c w1 w2 t,
       run_main Rube.run_recipe (with_disk (Some m) w) = (Exited c, w1) /\
       run_main Rube.run_recipe (with_disk None w) = (Exited c, w2) /\
       In ("[" +:+ t +:+ "] " +:+ "Warning: Failed to save log: " +:+ m) (stdout w1) /\
       written w1 = written w /\ log_file w1 = log_file w) /\
  (forall (w : world) (m : string),
     configured VLegacy w = true ->
     disk_fault w = Some m ->
     legacy_handled (legacy_attempt (server w (request_of VLegacy w))) = true ->
     exists w',
       run_main Legacy.run_recipe w = (Crashed (OtherException m), w') /\
       exit_status (Crashed (OtherException m)) = 1 /\
       written w' = written w /\ log_file w' = log_file w).
Proof.
  split.
  - intros w m Hc.
    destruct (rube_run (with_disk (Some m) w) Hc) as (w1 & Hrun1 & _ & Hlog1).
    destruct (rube_run (with_disk None w) Hc) as (w2 & Hrun2 & _ & _).
    cbn [disk_fault with_disk] in Hlog1.
    destruct Hlog1 as (Hw & Hf & t & Hin).
    eexists. exists w1, w2, t.
    split; [exact Hrun1|]. split; [exact Hrun2|].
    split; [exact Hin|]. split; [exact Hw | exact Hf].
  - intros w m Hc Hd Hh.
    destruct (legacy_run w Hc) as (w' & Hrun & _ & _ & t & Hw & Hf).
    rewrite Hd in Hrun, Hw, Hf. unfold legacy_written in Hw, Hf.
    exists w'. split; [|split; [reflexivity|]].
    + rewrite Hrun. f_equal.
      destruct (legacy_attempt (server w (request_of VLegacy w))) as [e|v];
        cbn [legacy_handled legacy_end] in *; [now rewrite Hh | reflexivity].
    + destruct (legacy_fields _ _ _) in Hw, Hf; rewrite app_nil_r in Hw; auto.
Qed.

(** ** The legacy client and a 2xx response *)



(** ** Two runs on the same configuration and the same answer *)

Lemma same_environ (v : variant) (w1 w2 : world) :
  environ w1 = environ w2 ->
  recipe_id_of w1 = recipe_id_of w2 /\
  input_data_of w1 = input_data_of w2 /\
  request_of v w1 = request_of v w2 /\
  configured v w1 = configured v w2.
Proof.
  intros E.
  unfold recipe_id_of, input_data_of, request_of, api_key_of, recipe_id_of, input_data_of,
    configured, env_given.
  rewrite E. repeat split.
Qed.

Lemma set_time_log_record (t1 t2 : string) (rid : json) (data : dict) :
  dict_get "execution_time" data = None ->
  set_time t2 (log_record t1 rid data) = log_record t2 rid data.
Proof.
  intros Hnone. unfold set_time, log_record. f_equal.
  rewrite dict_set_update; [reflexivity | exact Hnone | discriminate].
Qed.

(** C9.  Two invocations with the same configuration and the same service
    that each write a record write the same record but for its
    [execution_time]: the second is the first with that one field replaced,
    and each log file holds the serialisation of its record. *)
Theorem records_differ_only_in_time (v : variant) (w1 w2 : world) (rec1 rec2 : json) :
  environ w1 = environ w2 ->
  server w1 = server w2 ->
  written (snd (run_main (script v) w1)) = written w1 ++ [rec1] ->
  written (snd (run_main (script v) w2)) = written w2 ++ [rec2] ->
  (exists t, rec2 = set_time t rec1) /\
  log_file (snd (run_main (script v) w1)) = Some (json_dumps false rec1) /\
  log_file (snd (run_main (script v) w2)) = Some (json_dumps false rec2).
Proof.
  intros Henv Hsrv H1 H2.
  destruct (same_environ v w1 w2 Henv) as (Hrid & Hin & Hrq & Hcfg).
  destruct (configured v w1) eqn:Hc1; symmetry in Hcfg.
  2:{ destruct (unconfigured_stops v w1 Hc1) as (w' & Hrun & _ & Hw & _).
      rewrite Hrun in H1. cbn [snd] in H1. rewrite Hw in H1.
      now apply no_record_without_write in H1. }
  destruct v; cbn [script] in *.
  - destruct (legacy_run w1 Hc1) as (w1' & Hrun1 & _ & _ & t1 & Hw1 & Hf1).
    destruct (legacy_run w2 Hcfg) as (w2' & Hrun2 & _ & _ & t2 & Hw2 & Hf2).
    rewrite Hrun1 in H1 |- *. rewrite Hrun2 in H2 |- *. cbn [snd] in *.
    rewrite <- Hrid, <- Hin, <- Hrq, <- Hsrv in Hw2, Hf2.
    rewrite Hw1 in H1. rewrite Hw2 in H2.
    apply app_inv_head in H1, H2.
    rewrite H1 in Hf1. rewrite H2 in Hf2.
    split; [|split; assumption].
    unfold legacy_written in H1, H2.
    destruct (legacy_fields _ _ _) as [fields|]; [|discriminate].
    destruct (disk_fault w1); [discriminate|].
    destruct (disk_fault w2); [discriminate|].
    injection H1 as <-. injection H2 as <-. exists t2. reflexivity.
  - destruct (rube_run w1 Hc1) as (w1' & Hrun1 & _ & Hlog1).
    destruct (rube_run w2 Hcfg) as (w2' & Hrun2 & _ & Hlog2).
    rewrite Hrun1 in H1 |- *. rewrite Hrun2 in H2 |- *. cbn [snd] in *.
    rewrite <- Hrid, <- Hin, <- Hrq, <- Hsrv in Hlog2.
    destruct (disk_fault w1).
    { destruct Hlog1 as (Hw & _). rewrite Hw in H1.
      now apply no_record_without_write in H1. }
    destruct (disk_fault w2).
    { destruct Hlog2 as (Hw & _). rewrite Hw in H2.
      now apply no_record_without_write in H2. }
    destruct Hlog1 as (t1 & Hw1 & Hf1). destruct Hlog2 as (t2 & Hw2 & Hf2).
    rewrite Hw1 in H1. rewrite Hw2 in H2.
    apply one_record in H1, H2. subst rec1 rec2.
    split; [|split; assumption].
    exists t2. symmetry. apply set_time_log_record.
    apply (rube_record_fields t1 (recipe_id_of w1) (input_data_of w1)).
    apply rube_saved_shape.
Qed.

End Scripts.

(** * Examples *)


Lemma rube_non_object_body_fails_witness :
  exists w',
    run_main (@Rube.run_recipe plain_formatting)
      (example_world example_env (answer 200 (Parsed (JArr []))) None) = (Exited 1, w').
Proof.
  destruct (@rube_non_object_body_fails plain_formatting
              (example_world example_env (answer 200 (Parsed (JArr []))) None)
              (mkResponse 200 "" "https://backend.composio.dev/" "" (Parsed (JArr [])))
              (JArr []))
    as (w' & Hrun & _); try (vm_compute; reflexivity).
  exists w'. exact Hrun.
Defined.



Lemma missing_field_stops_before_call_witness :
  exists w',
    run_main (@script plain_formatting VRube)
      (example_world (delete "EMAIL_RECIPIENT" example_env)
         (answer 200 (Parsed (JObj []))) None)
    = (Exited 1, w') /\ sent w' = [].
Proof.
  destruct (@missing_field_stops_before_call plain_formatting VRube
              (example_world (delete "EMAIL_RECIPIENT" example_env)
                 (answer 200 (Parsed (JObj []))) None)
              "EMAIL_RECIPIENT")
    as (w' & Hrun & Hsent & _).
  - cbn. tauto.
  - left. vm_compute. reflexivity.
  - exists w'. split; [exact Hrun | exact Hsent].
Defined.

(** C2 as stated fails: with the prospect spreadsheet id absent, the legacy
    client still sends its request. *)
Lemma missing_field_counterexample :
  ~ (forall (F : Formatting) (v : variant) (w : world) (k : string),
       In k required_fields ->
       environ w !! k = None ->
       exit_status (fst (run_main (script v) w)) = 1 /\
       sent (snd (run_main (script v) w)) = sent w).
Proof.
  intros Hall.
  specialize (Hall plain_formatting VLegacy
                (example_world (delete "PROSPECT_SPREADSHEET_ID" example_env)
                   (answer 200 (Parsed (JObj [("success", JBool true)]))) None)
                "PROSPECT_SPREADSHEET_ID").
  destruct Hall as [Hexit _].
  - cbn. tauto.
  - vm_compute. reflexivity.
  - vm_compute in Hexit. discriminate Hexit.
Qed.

Lemma http_error_is_failed_witness :
  exists w',
    run_main (@Rube.run_recipe plain_formatting)
      (example_world example_env (answer 500 (Malformed (OtherException "not JSON"))) None)
    = (Exited 1, w').
Proof.
  destruct (proj1 (@http_error_is_failed plain_formatting)
              (example_world example_env
                 (answer 500 (Malformed (OtherException "not JSON"))) None)
              (mkResponse 500 "" "https://backend.composio.dev/" ""
                 (Malformed (OtherException "not JSON"))))
    as (w' & Hrun & _); try (vm_compute; reflexivity).
  exists w'. exact Hrun.
Defined.

(** C3 as stated fails: the legacy client takes a 202 response for a
    success. *)
Lemma http_error_counterexample :
  ~ (forall (F : Formatting) (v : variant) (w : world) (r : response),
       configured v w = true ->
       server w (request_of v w) = Responds r ->
       status_ok r = false ->
       exit_status (fst (run_main (script v) w)) = 1).
Proof.
  intros Hall.
  specialize (Hall plain_formatting VLegacy
                (example_world example_env
                   (answer 202 (Parsed (JObj [("status", JStr "success")]))) None)
                (mkResponse 202 "" "https://backend.composio.dev/" ""
                   (Parsed (JObj [("status", JStr "success")])))).
  vm_compute in Hall. specialize (Hall eq_refl eq_refl eq_refl). discriminate Hall.
Qed.


(** C5 (the code breaks it).  On a 200 response whose body is the JSON
    array [[]], the error of reading a field of the parsed body leaves the
    v-legacy client uncaught, and the one record it has written has status
    [success], not [failed]; the v-rube client catches the same error,
    writes a record with status [failed] and exits with code 1. *)
Theorem legacy_logic_error_uncaught :
  fst (run_main (@Legacy.run_recipe plain_formatting) array_reply_world) =
    Crashed (OtherException "'list' object has no attribute 'get'") /\
  map (record_field "status")
      (written (snd (run_main (@Legacy.run_recipe plain_formatting) array_reply_world))) =
    [ Some (JStr "success") ] /\
  fst (run_main (@Rube.run_recipe plain_formatting) array_reply_world) = Exited 1 /\
  map (record_field "status")
      (written (snd (run_main (@Rube.run_recipe plain_formatting) array_reply_world))) =
    [ Some (JStr "failed") ].
Proof.
  repeat split; vm_compute; reflexivity.
Qed.



Lemma log_write_failure_witness :
  exists c w1 w2,
    run_main (@Rube.run_recipe plain_formatting)
      (with_disk (Some "No space left on device")
         (example_world example_env (answer 200 (Parsed (JObj []))) None)) = (Exited c, w1) /\
    run_main (@Rube.run_recipe plain_formatting)
      (with_disk None
         (example_world example_env (answer 200 (Parsed (JObj []))) None)) = (Exited c, w2).
Proof.
  destruct (proj1 (@log_write_failure plain_formatting)
              (example_world example_env (answer 200 (Parsed (JObj []))) None)
              "No space left on device")
    as (c & w1 & w2 & t & Hrun1 & Hrun2 & _); try (vm_compute; reflexivity).
  exists c, w1, w2. split; [exact Hrun1 | exact Hrun2].
Defined.

(** C7 as stated fails: when the log file cannot be written, the legacy
    client turns a successful call into exit status 1. *)
Lemma log_write_failure_counterexample :
  ~ (forall (F : Formatting) (v : variant) (w : world) (m : string),
       configured v w = true ->
       exit_status (fst (run_main (script v) (with_disk (Some m) w))) =
       exit_status (fst (run_main (script v) (with_disk None w)))).
Proof.
  intros Hall.
  specialize (Hall plain_formatting VLegacy
                (example_world example_env
                   (answer 200 (Parsed (JObj [("success", JBool true)]))) None)
                "No space left on device").
  vm_compute in Hall. specialize (Hall eq_refl). discriminate Hall.
Qed.



Lemma records_differ_only_in_time_witness :
  exists rec1 rec2,
    (exists t, rec2 = set_time t rec1) /\
    log_file (snd (run_main (@script plain_formatting VRube)
                     (example_world example_env (answer 500 (Parsed JNull)) None))) =
      Some (@json_dumps plain_formatting false rec1) /\
    log_file (snd (run_main (@script plain_formatting VRube)
                     (a_day_later
                        (example_world example_env (answer 500 (Parsed JNull)) None)))) =
      Some (@json_dumps plain_formatting false rec2).
Proof.
  do 2 eexists.
  apply (@records_differ_only_in_time plain_formatting VRube
           (example_world example_env (answer 500 (Parsed JNull)) None)
           (a_day_later (example_world example_env (answer 500 (Parsed JNull)) None)));
    vm_compute; reflexivity.
Defined.

(** * Further properties *)

Section Further.
Context `{Formatting}.

(** ** Exactly one request *)

(** X1.  A configured run of either script sends exactly one request,
    whatever the service does with it (there is no retry and no polling):
    a POST with a 600 second timeout, the api key in [X-API-Key], to the
    recipe's own URL with body [{input: ...}] for v-legacy and to the one
    Rube URL with body [{recipe_id: ..., params: ...}] for v-rube. *)
Theorem one_request_as_built (v : variant) (w : world) :
  configured v w = true ->
  sent (snd (run_main (script v) w)) =
    sent w ++
    [ match v with
      | VLegacy =>
          mkRequest
            ("https://backend.composio.dev/api/v3/recipes/" +:+ recipe_id_of w +:+ "/execute")
            [ ("X-API-Key", api_key_of w); ("Content-Type", "application/json") ]
            (JObj [ ("input", JObj (input_data_of w)) ])
            600
      | VRube =>
          mkRequest
            "https://backend.composio.dev/api/v1/rube/recipe/execute"
            [ ("X-API-Key", api_key_of w); ("Content-Type", "application/json") ]
            (JObj [ ("recipe_id", JStr (recipe_id_of w));
                    ("params", JObj (input_data_of w)) ])
            600
      end ].
Proof.
  intros Hc. destruct v; cbn [script].
  - destruct (legacy_run w Hc) as (w' & Hrun & Hsent & _). now rewrite Hrun.
  - destruct (rube_run w Hc) as (w' & Hrun & Hsent & _). now rewrite Hrun.
Qed.

(** X2.  The parameters sent are read from the environment: a variable
    that is set is sent as it is, the empty string included; an unset
    calendar id, days-ahead or top-n is sent as [primary], [21] or [10],
    and an unset spreadsheet id or recipient as the empty string. *)
Theorem parameters_sent (v : variant) (w : world) :
  configured v w = true ->
  exists rq,
    sent (snd (run_main (script v) w)) = sent w ++ [rq] /\
    match v with
    | VLegacy => record_field "input" (req_json rq)
    | VRube => record_field "params" (req_json rq)
    end =
    Some (JObj [ ("prospect_spreadsheet_id", JStr (env_or w "PROSPECT_SPREADSHEET_ID" ""));
                 ("line_log_spreadsheet_id", JStr (env_or w "LINE_LOG_SPREADSHEET_ID" ""));
                 ("email_recipient", JStr (env_or w "EMAIL_RECIPIENT" ""));
                 ("calendar_id", JStr (env_or w "CALENDAR_ID" "primary"));
                 ("days_ahead", JStr (env_or w "DAYS_AHEAD" "21"));
                 ("top_n_prospects", JStr (env_or w "TOP_N_PROSPECTS" "10")) ]).
Proof.
  intros Hc. eexists. split; [apply one_request_as_built, Hc|].
  unfold env_or, input_data_of.
  destruct v; cbn [req_json record_field dict_get String.eqb Ascii.eqb Bool.eqb];
    repeat match goal with |- context [environ w !! ?k] => destruct (environ w !! k) end;
    reflexivity.
Qed.

(** ** The Rube client always exits *)



Lemma rube_status_and_exit (t recipe_id : string) (input_data data : dict) :
  rube_shape recipe_id input_data data ->
  (record_field "status" (log_record t (JStr recipe_id) data) = Some (JStr "failed") /\
   rube_exit data = 1) \/
  ((record_field "status" (log_record t (JStr recipe_id) data) = Some (JStr "started") \/
    record_field "status" (log_record t (JStr recipe_id) data) = Some (JStr "success")) /\
   rube_exit data = 0).
Proof.
  intros [msg|r|eid|d]; cbn; auto.
Qed.

(** X4.  In [run_recipe_v3.py] the exit code and the record agree: with a
    writable log file the run exits with 1 exactly when the record it wrote
    has status [failed], and with 0 exactly when it has status [started] or
    [success]. *)
Theorem rube_exit_code_follows_record (w : world) :
  configured VRube w = true ->
  disk_fault w = None ->
  exists c w' rec,
    run_main Rube.run_recipe w = (Exited c, w') /\
    written w' = written w ++ [rec] /\
    (c = 1 <-> record_field "status" rec = Some (JStr "failed")) /\
    (c = 0 <-> record_field "status" rec = Some (JStr "started") \/
               record_field "status" rec = Some (JStr "success")).
Proof.
  intros Hc Hd.
  destruct (rube_run w Hc) as (w' & Hrun & _ & Hlog).
  rewrite Hd in Hlog. destruct Hlog as (t & Hw & _).
  do 3 eexists. split; [exact Hrun|]. split; [exact Hw|].
  destruct (rube_status_and_exit t (recipe_id_of w) (input_data_of w) _
              (rube_saved_shape (recipe_id_of w) (input_data_of w)
                 (server w (request_of VRube w))))
    as [[Hst ->]|[Hst ->]]; rewrite ?Hst.
  - split; split; try reflexivity; try discriminate.
    intros [E|E]; discriminate E.
  - split; split; try discriminate; try reflexivity.
    + destruct Hst as [-> | ->]; discriminate.
    + intros _. exact Hst.
Qed.

(** ** What an exception becomes *)

(** X5.  What [run_recipe_v3.py] makes of an exception of the call or of
    the parsing of an accepted response: exit code 1 and a record of four
    fields, whose error is the fixed text [Request timeout after 10 minutes]
    for a timeout (the message of the exception is dropped), [Request
    failed: ] and the message for any other requests exception, and
    [Unexpected error: ] and the message for anything else. *)
Theorem rube_error_record (w : world) (e : exn) :
  configured VRube w = true ->
  call_raises VRube w e ->
  exists w',
    run_main Rube.run_recipe w = (Exited 1, w') /\
    (disk_fault w = None ->
     exists t,
       written w' = written w ++
         [ JObj [ ("execution_time", JStr t);
                  ("recipe_id", JStr (recipe_id_of w));
                  ("status", JStr "failed");
                  ("error",
                   JStr match e with
                        | Timeout _ => "Request timeout after 10 minutes"
                        | RequestException m => "Request failed: " +:+ m
                        | OtherException m => "Unexpected error: " +:+ m
                        end) ] ]).
Proof.
  intros Hc Hcall.
  destruct (rube_run w Hc) as (w' & Hrun & _ & Hlog).
  assert (Hsaved : rube_saved (recipe_id_of w) (input_data_of w)
                     (server w (request_of VRube w)) = rube_on_error e).
  { destruct Hcall as [Hs|(r & Hs & Hb & Hok)]; rewrite Hs; cbn [rube_saved].
    - reflexivity.
    - now rewrite Hok, Hb. }
  rewrite Hsaved in Hrun, Hlog.
  exists w'. split.
  - rewrite Hrun. destruct e; reflexivity.
  - intros Hd. rewrite Hd in Hlog. destruct Hlog as (t & Hw & _).
    exists t. rewrite Hw. destruct e; reflexivity.
Qed.

(** X6.  In [run_recipe.py] a requests exception (a timeout included)
    raised by the call, or by the parsing of a response below 400, gives
    exit code 1 and a record with the input, the message of the exception
    as it is, and status [failed], which replaces the log file. *)
Theorem legacy_request_exception_record (w : world) (e : exn) :
  configured VLegacy w = true ->
  call_raises VLegacy w e ->
  isinstance_RequestException e = true ->
  disk_fault w = None ->
  exists w' t,
    run_main Legacy.run_recipe w = (Exited 1, w') /\
    written w' = written w ++
      [ JObj [ ("execution_time", JStr t);
               ("recipe_id", JStr (recipe_id_of w));
               ("input", JObj (input_data_of w));
               ("error", JStr (str_exn e));
               ("status", JStr "failed") ] ] /\
    log_file w' =
      Some (json_dumps false
              (JObj [ ("execution_time", JStr t);
                      ("recipe_id", JStr (recipe_id_of w));
                      ("input", JObj (input_data_of w));
                      ("error", JStr (str_exn e));
                      ("status", JStr "failed") ])).
Proof.
  intros Hc Hcall He Hd.
  destruct (legacy_run w Hc) as (w' & Hrun & _ & _ & t & Hw & Hf).
  assert (Ha : legacy_attempt (server w (request_of VLegacy w)) = Raised e).
  { destruct Hcall as [Hs|(r & Hs & Hb & Hok)]; rewrite Hs; cbn [legacy_attempt].
    - reflexivity.
    - now rewrite Hok, Hb. }
  rewrite Ha, Hd in Hrun, Hw, Hf. unfold legacy_written in Hw, Hf.
  cbn [legacy_end legacy_fields] in Hrun, Hw, Hf. rewrite He in Hrun, Hw, Hf.
  exists w', t. split; [exact Hrun|]. split; [exact Hw | exact Hf].
Qed.

(** X7.  In [run_recipe.py] an exception that is not a requests exception
    is not handled: the request has been sent, the process ends with that
    exception, and the log file is left as it was. *)
Theorem legacy_other_exception_crashes (w : world) (e : exn) :
  configured VLegacy w = true ->
  call_raises VLegacy w e ->
  isinstance_RequestException e = false ->
  exists w',
    run_main Legacy.run_recipe w = (Crashed e, w') /\
    sent w' = sent w ++ [request_of VLegacy w] /\
    written w' = written w /\
    log_file w' = log_file w.
Proof.
  intros Hc Hcall He.
  destruct (legacy_run w Hc) as (w' & Hrun & Hsent & _ & t & Hw & Hf).
  assert (Ha : legacy_attempt (server w (request_of VLegacy w)) = Raised e).
  { destruct Hcall as [Hs|(r & Hs & Hb & Hok)]; rewrite Hs; cbn [legacy_attempt].
    - reflexivity.
    - now rewrite Hok, Hb. }
  rewrite Ha in Hrun, Hw, Hf. unfold legacy_written in Hw, Hf.
  cbn [legacy_end legacy_fields] in Hrun, Hw, Hf. rewrite He in Hrun, Hw, Hf.
  exists w'. split.
  - rewrite Hrun. now destruct (disk_fault w).
  - split; [exact Hsent|]. rewrite app_nil_r in Hw. split; [exact Hw | exact Hf].
Qed.

(** ** What exit code 0 tells *)

(** X8.  Exit code 0 is only reached after an answer: if either script
    exits with 0, every checked field was given and the service answered
    with a body that parses to a JSON object; for v-rube the status was 200
    or 201 and the body had a truthy [execution_id] or object data, for
    v-legacy the status raised no HTTP error and the log was written. *)
Theorem exit_0_only_after_answer (v : variant) (w : world) :
  exit_status (fst (run_main (script v) w)) = 0 ->
  configured v w = true /\
  exists r o,
    server w (request_of v w) = Responds r /\
    body r = Parsed (JObj o) /\
    match v with
    | VLegacy => http_error_msg r = None /\ disk_fault w = None
    | VRube => status_ok r = true /\ (truthy (execution_id_of o) = true \/ is_dict (data_of o) = true)
    end.
Proof.
  intros Hexit.
  destruct (configured v w) eqn:Hc.
  2:{ destruct (unconfigured_stops v w Hc) as (w' & Hrun & _).
      rewrite Hrun in Hexit. discriminate Hexit. }
  split; [reflexivity|].
  destruct v; cbn [script] in Hexit.
  - destruct (legacy_run w Hc) as (w' & Hrun & _).
    rewrite Hrun in Hexit. cbn [fst] in Hexit.
    destruct (server w (request_of VLegacy w)) as [e|r]; cbn [legacy_attempt] in Hexit.
    + cbn in Hexit.
      destruct (disk_fault w), (isinstance_RequestException e); discriminate Hexit.
    + destruct (http_error_msg r) as [m|] eqn:Hhttp.
      { cbn in Hexit. destruct (disk_fault w); discriminate Hexit. }
      destruct (body r) as [x|e] eqn:Hb.
      * destruct (disk_fault w) as [m|] eqn:Hd; [discriminate Hexit|].
        destruct x; try discriminate Hexit.
        do 2 eexists. repeat split; eauto.
      * cbn in Hexit.
        destruct (disk_fault w), (isinstance_RequestException e); discriminate Hexit.
  - destruct (rube_run w Hc) as (w' & Hrun & _).
    rewrite Hrun in Hexit. cbn [fst exit_status] in Hexit.
    destruct (server w (request_of VRube w)) as [e|r]; cbn [rube_saved] in Hexit.
    + destruct e; discriminate Hexit.
    + destruct (status_ok r) eqn:Hok; cbn [negb] in Hexit; [|discriminate Hexit].
      destruct (body r) as [x|e] eqn:Hb; [|destruct e; discriminate Hexit].
      destruct x; try discriminate Hexit.
      exists r, fields. split; [reflexivity|]. split; [exact Hb|]. split; [exact Hok|].
      destruct (truthy (execution_id_of fields)); [now left|].
      right. destruct (data_of fields); try discriminate Hexit; reflexivity.
Qed.

(** ** [save_log] *)






(** ** What is printed *)

Ltac run_known ::=
  lazymatch goal with
  | |- runs (Rube.save_log _) _ _ _ => apply save_log_runs
  end.

(** X11.  The checks of [run_recipe_v3.py] are made in order and stop at
    the first field that is missing: the last line printed names that
    variable, and the exit code is 1.  [run_recipe.py] prints one line,
    without a timestamp, that names both of the variables it checks. *)
Theorem missing_field_is_named :
  (forall (w : world) (k : string),
     first_missing w required_fields = Some k ->
     exists w' pre t,
       run_main Rube.run_recipe w = (Exited 1, w') /\
       stdout w' = pre ++ [ "[" +:+ t +:+ "] " +:+ "ERROR: " +:+ k +:+ " not set" ]) /\
  (forall (w : world),
     configured VLegacy w = false ->
     exists w',
       run_main Legacy.run_recipe w = (Exited 1, w') /\
       stdout w' = stdout w ++ [ "ERROR: Missing COMPOSIO_API_KEY or RECIPE_ID" ]).
Proof.
  split.
  - intros w k. cbn [first_missing required_fields].
    destruct (env_given w "COMPOSIO_API_KEY") eqn:H1;
      [destruct (env_given w "RECIPE_ID") eqn:H2;
        [destruct (env_given w "PROSPECT_SPREADSHEET_ID") eqn:H3;
          [destruct (env_given w "LINE_LOG_SPREADSHEET_ID") eqn:H4;
            [destruct (env_given w "EMAIL_RECIPIENT") eqn:H5; [discriminate|] |] |] |] |];
      intros [= <-]; given_facts; missing_facts;
      (do 3 eexists; split;
       [ apply runs_main_exit; run
       | world_simpl; reflexivity ]).
  - cbn [configured checked_fields forallb]. intros w Hc.
    destruct (env_given w "COMPOSIO_API_KEY") eqn:H1;
      [destruct (env_given w "RECIPE_ID") eqn:H2; [discriminate|] |];
      given_facts; missing_facts;
      (eexists; split; [apply runs_main_exit; run | world_simpl; reflexivity]).
Qed.





End Further.

(** ** Examples for the further properties *)

Lemma one_request_as_built_witness :
  length (sent (snd (run_main (@script plain_formatting VLegacy)
                       (example_world example_env (Raises (Timeout "read timed out")) None))))
  = 1%nat.
Proof.
  rewrite (@one_request_as_built plain_formatting VLegacy
             (example_world example_env (Raises (Timeout "read timed out")) None));
    vm_compute; reflexivity.
Defined.

Lemma parameters_sent_witness :
  exists rq,
    sent (snd (run_main (@script plain_formatting VRube)
                 (example_world (<["CALENDAR_ID" := ""]> example_env)
                    (answer 200 (Parsed (JObj []))) None))) = [rq] /\
    record_field "params" (req_json rq) =
      Some (JObj [ ("prospect_spreadsheet_id", JStr "sheet-a");
                   ("line_log_spreadsheet_id", JStr "sheet-b");
                   ("email_recipient", JStr "owner@example.org");
                   ("calendar_id", JStr "");
                   ("days_ahead", JStr "21");
                   ("top_n_prospects", JStr "10") ]).
Proof.
  destruct (@parameters_sent plain_formatting VRube
              (example_world (<["CALENDAR_ID" := ""]> example_env)
                 (answer 200 (Parsed (JObj []))) None))
    as (rq & Hsent & Hparams); [vm_compute; reflexivity|].
  exists rq. split; [exact Hsent | exact Hparams].
Defined.

Lemma rube_exit_code_follows_record_witness :
  exists c w' rec,
    run_main (@Rube.run_recipe plain_formatting)
      (example_world example_env (answer 503 (Malformed (OtherException "not JSON"))) None)
    = (Exited c, w') /\
    written w' = [rec] /\
    (c = 1 <-> record_field "status" rec = Some (JStr "failed")).
Proof.
  destruct (@rube_exit_code_follows_record plain_formatting
              (example_world example_env
                 (answer 503 (Malformed (OtherException "not JSON"))) None))
    as (c & w' & rec & Hrun & Hw & Hfailed & _); try (vm_compute; reflexivity).
  exists c, w', rec. split; [exact Hrun|]. split; [exact Hw | exact Hfailed].
Defined.

Lemma rube_error_record_witness :
  exists w',
    run_main (@Rube.run_recipe plain_formatting)
      (example_world example_env (Raises (Timeout "read timed out")) None)
    = (Exited 1, w').
Proof.
  destruct (@rube_error_record plain_formatting
              (example_world example_env (Raises (Timeout "read timed out")) None)
              (Timeout "read timed out"))
    as (w' & Hrun & _); [vm_compute; reflexivity | left; reflexivity |].
  exists w'. exact Hrun.
Defined.

Lemma legacy_request_exception_record_witness :
  exists w' t,
    run_main (@Legacy.run_recipe plain_formatting)
      (example_world example_env (Raises (RequestException "connection refused")) None)
    = (Exited 1, w') /\
    written w' =
      [ JObj [ ("execution_time", JStr t);
               ("recipe_id", JStr "rcp_42");
               ("input",
                JObj (input_data_of
                        (example_world example_env
                           (Raises (RequestException "connection refused")) None)));
               ("error", JStr "connection refused");
               ("status", JStr "failed") ] ].
Proof.
  destruct (@legacy_request_exception_record plain_formatting
              (example_world example_env
                 (Raises (RequestException "connection refused")) None)
              (RequestException "connection refused"))
    as (w' & t & Hrun & Hw & _);
    [vm_compute; reflexivity | left; reflexivity | reflexivity | reflexivity |].
  exists w', t. split; [exact Hrun | exact Hw].
Defined.

Lemma legacy_other_exception_crashes_witness :
  exists w',
    run_main (@Legacy.run_recipe plain_formatting)
      (example_world example_env
         (answer 200 (Malformed (OtherException "Expecting value"))) None)
    = (Crashed (OtherException "Expecting value"), w') /\
    written w' = [].
Proof.
  destruct (@legacy_other_exception_crashes plain_formatting
              (example_world example_env
                 (answer 200 (Malformed (OtherException "Expecting value"))) None)
              (OtherException "Expecting value"))
    as (w' & Hrun & _ & Hw & _).
  - vm_compute; reflexivity.
  - right. eexists. split; [reflexivity|]. split; reflexivity.
  - reflexivity.
  - exists w'. split; [exact Hrun | exact Hw].
Defined.

Lemma exit_0_only_after_answer_witness :
  exists r o,
    answer 200 (Parsed (JObj [("execution_id", JStr "abc123")])) = Responds r /\
    body r = Parsed (JObj o) /\
    status_ok r = true.
Proof.
  destruct (@exit_0_only_after_answer plain_formatting VRube
              (example_world example_env
                 (answer 200 (Parsed (JObj [("execution_id", JStr "abc123")]))) None))
    as (_ & r & o & Hs & Hb & Hok & _); [vm_compute; reflexivity|].
  exists r, o. split; [exact Hs|]. split; [exact Hb | exact Hok].
Defined.



Lemma missing_field_is_named_witness :
  exists w' pre t,
    run_main (@Rube.run_recipe plain_formatting)
      (example_world (delete "LINE_LOG_SPREADSHEET_ID" example_env)
         (answer 200 (Parsed (JObj []))) None)
    = (Exited 1, w') /\
    stdout w' = pre ++ [ "[" +:+ t +:+ "] " +:+ "ERROR: LINE_LOG_SPREADSHEET_ID not set" ].
Proof.
  apply (proj1 (@missing_field_is_named plain_formatting)
           (example_world (delete "LINE_LOG_SPREADSHEET_ID" example_env)
              (answer 200 (Parsed (JObj []))) None)
           "LINE_LOG_SPREADSHEET_ID").
  vm_compute. reflexivity.
Defined.


